(** * YPPF, [extern/wechat.py]: sending notifications through the WeChat API

    A shallow embedding of the module and the properties its description
    states about it.  Python values are embedded as data, the HTTP server,
    the clock, the job scheduler and the logger as an explicit world that
    the functions thread through, and exceptions as a result type.

    Conventions: an [int] is an integer of [Z]; arguments have the types
    of their annotations, while what comes back from the server or from
    the configured hasher is an arbitrary value; the configuration object
    and [build_full_url], which live in other modules, are parameters. *)

From Stdlib Require Import ZArith String Ascii List DecimalString.
From stdpp Require Import base decidable option list sorting gmap strings.

Set Warnings "-register-all,-clear-no-such-hyp".
Local Open Scope string_scope.
Local Open Scope Z_scope.

(** ** Strings

    A Python [str] is represented by its UTF-8 encoding: equality,
    concatenation and the lexicographic order on code points are those of
    the byte sequences.  Indexing and iteration go by code point, which
    [str_chars] recovers from the encoding. *)

(** [str(n)] for an [int]: the decimal numeral. *)
Definition str_of_Z (z : Z) : string := NilZero.string_of_int (Z.to_int z).

(** Number of continuation bytes announced by the leading byte [c]. *)
Definition utf8_tail_len (c : ascii) : nat :=
  let n := N_of_ascii c in
  if (n <? 192)%N then 0%nat
  else if (n <? 224)%N then 1%nat
  else if (n <? 240)%N then 2%nat
  else 3%nat.

Fixpoint string_take (n : nat) (s : string) : string :=
  match n, s with
  | S n', String c s' => String c (string_take n' s')
  | _, _ => EmptyString
  end.

Fixpoint string_drop (n : nat) (s : string) : string :=
  match n, s with
  | S n', String _ s' => string_drop n' s'
  | _, _ => s
  end.

(** The characters of a string, each as a string of length one (what
    iterating over a [str] yields).  [fuel] bounds the number of
    characters; the length in bytes is always enough. *)
Fixpoint str_chars_aux (fuel : nat) (s : string) : list string :=
  match fuel, s with
  | S fuel', String c s' =>
      let k := utf8_tail_len c in
      String c (string_take k s') :: str_chars_aux fuel' (string_drop k s')
  | _, _ => []
  end.

Definition str_chars (s : string) : list string :=
  str_chars_aux (String.length s) s.

(** ** Python values *)

(** A [float], by its exact value [m * 2^e], or one of the special values. *)
Inductive pyfloat :=
| FNan
| FInf (negative : bool)
| FFinite (m e : Z).

(** The values that flow through the module: what [json] decodes to, what
    the payload is built from, and [VObject] for any other Python object
    (none of which [json.dumps] can encode). *)
Inductive value :=
| VNone
| VBool (b : bool)
| VInt (z : Z)
| VFloat (f : pyfloat)
| VStr (s : string)
| VList (l : list value)
| VDict (d : list (string * value))
| VObject (id : N).

(** A [dict] with [str] keys, in insertion order. *)
Definition dict := list (string * value).

Fixpoint dict_get (d : dict) (k : string) : option value :=
  match d with
  | [] => None
  | (k', v) :: d' => if String.eqb k' k then Some v else dict_get d' k
  end.

(** [d[k] = v]: overwrite in place, or append a new key. *)
Fixpoint dict_set (d : dict) (k : string) (v : value) : dict :=
  match d with
  | [] => [(k, v)]
  | (k', v') :: d' =>
      if String.eqb k' k then (k', v) :: d' else (k', v') :: dict_set d' k v
  end.

Definition is_none (v : value) : bool :=
  match v with VNone => true | _ => false end.

(** Truth value of [v] in a condition. *)
Definition truthy (v : value) : bool :=
  match v with
  | VNone => false
  | VBool b => b
  | VInt z => negb (z =? 0)
  | VFloat (FFinite m _) => negb (m =? 0)
  | VFloat _ => true
  | VStr s => negb (String.eqb s "")
  | VList l => match l with [] => false | _ => true end
  | VDict d => match d with [] => false | _ => true end
  | VObject _ => true
  end.

(** [v == n] for an [int] literal [n]: numbers compare by exact value
    ([True] is 1, [False] is 0), anything else is unequal. *)
Definition eq_int (v : value) (n : Z) : bool :=
  match v with
  | VInt z => z =? n
  | VBool b => Z.b2z b =? n
  | VFloat (FFinite m e) =>
      if 0 <=? e then m * 2 ^ e =? n else m =? n * 2 ^ (- e)
  | _ => false
  end.

(** ** Exceptions *)

Inductive exn :=
| TypeError
| KeyError
| IndexError
| AttributeError
| AssertionError
| ValueError
| OverflowError
| ConnectionError.

Inductive res (A : Type) :=
| Ok (a : A)
| Raise (e : exn).
Arguments Ok {A} a.
Arguments Raise {A} e.

#[global] Instance res_ret : MRet res := @Ok.
#[global] Instance res_bind : MBind res := fun A B f r =>
  match r with Ok a => f a | Raise e => Raise e end.

(** [try: r  except: h], for a computation without effects. *)
Definition try_except {A} (r : res A) (h : A) : A :=
  match r with Ok a => a | Raise _ => h end.

(** [v[k]] with a [str] key. *)
Definition getitem_str (v : value) (k : string) : res value :=
  match v with
  | VDict d => match dict_get d k with Some x => Ok x | None => Raise KeyError end
  | _ => Raise TypeError
  end.

(** [v.get(k)]. *)
Definition get_method (v : value) (k : string) : res value :=
  match v with
  | VDict d => Ok (default VNone (dict_get d k))
  | _ => Raise AttributeError
  end.

(** [v[i]] with a non-negative [int] index.  The keys of a [dict] are
    strings here, so an [int] is never among them. *)
Definition getitem_nat (v : value) (i : nat) : res value :=
  match v with
  | VList l => match l !! i with Some x => Ok x | None => Raise IndexError end
  | VStr s => match str_chars s !! i with Some c => Ok (VStr c) | None => Raise IndexError end
  | VDict _ => Raise KeyError
  | _ => Raise TypeError
  end.

(** The items [for x in v] goes through. *)
Definition iterate (v : value) : res (list value) :=
  match v with
  | VList l => Ok l
  | VStr s => Ok (VStr <$> str_chars s)
  | VDict d => Ok ((fun kv => VStr (fst kv)) <$> d)
  | _ => Raise TypeError
  end.

(** [[f(x) for x in l]]: stops at the first exception. *)
Fixpoint comprehension {A B} (f : A -> res B) (l : list A) : res (list B) :=
  match l with
  | [] => Ok []
  | x :: l' => y ← f x; ys ← comprehension f l'; Ok (y :: ys)
  end.

(** [sep.join(items)]: every item has to be a [str]. *)
Fixpoint str_join (sep : string) (items : list value) : res string :=
  match items with
  | [] => Ok ""
  | [VStr s] => Ok s
  | VStr s :: rest => r ← str_join sep rest; Ok (s ++ sep ++ r)%string
  | _ => Raise TypeError
  end.

(** Slices [l[lo:hi]]: a negative bound counts from the end, and bounds
    are clipped to the list. *)
Definition slice_bound (len i : Z) : Z :=
  if i <? 0 then Z.max 0 (i + len) else Z.min i len.

Definition slice {A} (l : list A) (lo hi : Z) : list A :=
  let len := Z.of_nat (length l) in
  drop (Z.to_nat (slice_bound len lo)) (take (Z.to_nat (slice_bound len hi)) l).

(** [range(start, stop, step)]. *)
Definition range (start stop step : Z) : res (list Z) :=
  if step =? 0 then Raise ValueError
  else if 0 <? step then
    Ok ((fun k => start + Z.of_nat k * step) <$> seq 0 (Z.to_nat ((stop - start + step - 1) / step)))
  else
    Ok ((fun k => start + Z.of_nat k * step) <$> seq 0 (Z.to_nat ((start - stop - step - 1) / (- step)))).

(** ** [json.dumps]

    The JSON text is represented by the document it encodes; encoding
    fails exactly on the objects [json] has no encoder for. *)
Fixpoint serialisable (v : value) : bool :=
  match v with
  | VList l => forallb serialisable l
  | VDict d => forallb (fun kv => serialisable (snd kv)) d
  | VObject _ => false
  | _ => true
  end.

Definition json_dumps (v : value) : res value :=
  if serialisable v then Ok v else Raise TypeError.

(** ** [datetime] and [timedelta]

    A naive [datetime] is the number of microseconds since
    0001-01-01T00:00:00, a [timedelta] a number of microseconds.  The
    last representable instant is 9999-12-31T23:59:59.999999. *)
Definition datetime := Z.
Definition timedelta := Z.

Definition datetime_max : datetime := 3652059 * 86400 * 1000000 - 1.

Definition timedelta_seconds (n : Z) : timedelta := n * 1000000.

(** [t + d]. *)
Definition datetime_add (t : datetime) (d : timedelta) : res datetime :=
  if (0 <=? t + d) && (t + d <=? datetime_max) then Ok (t + d)
  else Raise OverflowError.

(** The [next_run_time] argument: [datetime | timedelta | None]. *)
Inductive next_run :=
| NRDatetime (t : datetime)
| NRTimedelta (d : timedelta)
| NRNone.

(** ** Configuration: [extern.config.wechat_config] *)

Module Config.

Record wechat_config := {
  receivers : option (gset string);
  blacklist : gset string;
  multithread : bool;
  retry : bool;
  send_batch : Z;
  timeout : value;
  api_url : string;
  hasher_encode : string -> value;
}.

End Config.
Export Config.

(** ** Identifiers handed to the public functions: [str | int] *)

Inductive ident :=
| IdStr (s : string)
| IdInt (z : Z).

Definition str (u : ident) : string :=
  match u with IdStr s => s | IdInt z => str_of_Z z end.

(** [sorted(s)] for a set of strings. *)
Definition sorted (s : gset string) : list string :=
  merge_sort String.le (elements s).

(** ** The outside world *)

Record request := {
  req_url : string;
  req_data : value;
  req_timeout : value;
}.

(** What [requests.post] returns; [response_json] is the outcome of its
    [.json()]. *)
Record raw_response := { response_json : res value }.

Inductive level := INFO | WARNING.

(** A piece of an f-string: literal text, or [{v}] for a value whose
    rendering is left to the interpreter. *)
Inductive fragment :=
| Text (s : string)
| Formatted (v : value).

Definition ParseResult : Type := value * option (list value).

(** Arguments of one call of [_send_wechat]. *)
Record send_args := {
  sa_users : list string;
  sa_message : string;
  sa_api_url : string;
  sa_card : bool;
  sa_url : option string;
  sa_btntxt : option string;
  sa_retry_times : Z;
}.

Section Wechat.

(** What the scheduler keeps of a job: the callable together with the
    positional and keyword arguments it is to be called with. *)
Context {Call : Type}.

Record job := {
  job_call : Call;
  job_trigger : string;
  job_next_run_time : datetime;
}.

(** The world the module acts on.  The server answers a request knowing
    the requests made before it: [Raise] when [requests.post] raises, a
    response otherwise.  [w_clock] gives the successive readings of
    [datetime.now()]. *)
Record world := {
  w_server : list request -> request -> res raw_response;
  w_posts : list request;
  w_clock : nat -> datetime;
  w_reads : nat;
  w_jobs : list job;
  w_log : list (level * list fragment);
}.

(** Computations: they may change the world, and return or raise. *)
Definition M (A : Type) : Type := world -> res A * world.

#[global] Instance M_ret : MRet M := fun A a w => (Ok a, w).
#[global] Instance M_bind : MBind M := fun A B f m w =>
  match m w with
  | (Ok a, w') => f a w'
  | (Raise e, w') => (Raise e, w')
  end.

(** A computation without effects, run in place. *)
Definition lift {A} (r : res A) : M A := fun w => (r, w).

(** The world after one more request, clock reading, job or log record. *)
Definition add_post (w : world) (rq : request) : world :=
  {| w_server := w_server w; w_posts := w_posts w ++ [rq];
     w_clock := w_clock w; w_reads := w_reads w;
     w_jobs := w_jobs w; w_log := w_log w |}.

Definition tick (w : world) : world :=
  {| w_server := w_server w; w_posts := w_posts w;
     w_clock := w_clock w; w_reads := S (w_reads w);
     w_jobs := w_jobs w; w_log := w_log w |}.

Definition add_job (w : world) (j : job) : world :=
  {| w_server := w_server w; w_posts := w_posts w;
     w_clock := w_clock w; w_reads := w_reads w;
     w_jobs := w_jobs w ++ [j]; w_log := w_log w |}.

Definition add_log (w : world) (lv : level) (msg : list fragment) : world :=
  {| w_server := w_server w; w_posts := w_posts w;
     w_clock := w_clock w; w_reads := w_reads w;
     w_jobs := w_jobs w; w_log := w_log w ++ [(lv, msg)] |}.

(** [requests.post(url, data, timeout=timeout)]. *)
Definition requests_post (url : string) (data timeout : value) : M raw_response :=
  fun w =>
    let rq := {| req_url := url; req_data := data; req_timeout := timeout |} in
    (w_server w (w_posts w) rq, add_post w rq).

(** [datetime.now()]. *)
Definition datetime_now : M datetime :=
  fun w => (Ok (w_clock w (w_reads w)), tick w).

(** [scheduler.add_job(func, trigger, args=args, kwargs=kwargs,
    next_run_time=t)]. *)
Definition scheduler_add_job (c : Call) (trigger : string) (t : datetime) : M value :=
  fun w =>
    (Ok VNone,
     add_job w {| job_call := c; job_trigger := trigger; job_next_run_time := t |}).

(** [logger.info(msg)] and [logger.warning(msg)]; both return [None]. *)
Definition logger_log (lv : level) (msg : list fragment) : M value :=
  fun w => (Ok VNone, add_log w lv msg).

Definition logger_info := logger_log INFO.
Definition logger_warning := logger_log WARNING.

(** [for x in l: body(x)]. *)
Fixpoint for_each {A} (l : list A) (body : A -> M value) : M value :=
  match l with
  | [] => mret VNone
  | x :: l' => body x ;; for_each l' body
  end.

Variable CONFIG : wechat_config.

(** [utils.http.utils.build_full_url(path, root)], with [root] optional. *)
Variable build_full_url : string -> option string -> string.

Definition DEFAULT_URL : string := build_full_url "/" None.

(** *** [_get_caller] (lines 36-57)

    [func_ref args] is what the job keeps of [func] and the arguments of
    the call. *)
Definition _get_caller {A} (func : A -> M value) (func_ref : A -> Call)
    (multithread : bool) (next_run_time : next_run) : A -> M value :=
  let multithread := multithread && Config.multithread CONFIG in
  if negb multithread then func
  else fun args =>
    _next_run ← match next_run_time with
                | NRDatetime t => mret t
                | NRTimedelta d => now ← datetime_now; lift (datetime_add now d)
                | NRNone => now ← datetime_now;
                            lift (datetime_add now (timedelta_seconds 5))
                end;
    scheduler_add_job (func_ref args) "date" _next_run ;;
    mret VNone.

(** *** [_get_available_users] (lines 60-68) *)
Definition _get_available_users (users : list ident) : list string :=
  let _users : gset string := list_to_set (str <$> users) in
  let _users := match receivers CONFIG with
                | Some r => _users ∩ r
                | None => _users
                end in
  let _users := if bool_decide (blacklist CONFIG = ∅) then _users
                else _users ∖ blacklist CONFIG in
  sorted _users.

(** *** [_post_and_parse] (lines 72-106) *)

(** The last [try] block, lines 97-104. *)
Definition parse_body (detail_parser : option (value -> res ParseResult))
    (response : value) : res ParseResult :=
  status ← getitem_str response "status";
  if eq_int status 200 then Ok (VNone, Some [])
  else
    datas ← getitem_str response "data";
    detail ← get_method datas "detail";
    if truthy detail then
      match detail_parser with
      | None => Raise AssertionError
      | Some parser => d ← getitem_str datas "detail"; parser d
      end
    else
      errmsg ← getitem_str datas "errMsg";
      Ok (errmsg, None).

(** Lines 93-106: what is returned once the request is out, from the
    outcome [reply] of [requests.post]. *)
Definition parse_reply (detail_parser : option (value -> res ParseResult))
    (reply : res raw_response) : ParseResult :=
  match reply with
  | Raise _ => (VStr "连接API失败", None)
  | Ok raw_response =>
      match response_json raw_response with
      | Raise _ => (VStr "JSON解析失败", None)
      | Ok response =>
          try_except (parse_body detail_parser response) (VStr "回应解析失败", None)
      end
  end.

Definition _post_and_parse (post_url : string) (post_data : dict) (timeout : value)
    (detail_parser : option (value -> res ParseResult)) : M ParseResult :=
  fun w =>
    match json_dumps (VDict post_data) with
    | Raise _ => (Ok (VStr "JSON编码失败", None), w)
    | Ok _post_data =>
        let '(reply, w') := requests_post post_url _post_data timeout w in
        (Ok (parse_reply detail_parser reply), w')
    end.

(** *** [_log_users] (lines 109-113) *)
Definition _log_users (users : list value) : res string :=
  let len := Z.of_nat (length users) in
  if len <=? 10 then str_join ", " users
  else
    let user_display := (slice users 0 3 ++ [VStr "..."] ++ slice users (-3) len)%list in
    s ← str_join ", " user_display;
    Ok (s ++ "等" ++ str_of_Z len ++ "用户")%string.

(** *** [_send_wechat] (lines 116-154) *)

(** The local [_parser], lines 140-143. *)
Definition _parser (detail : value) : res ParseResult :=
  items ← iterate detail;
  retrys ← comprehension (fun x => getitem_nat x 0) items;
  first ← getitem_nat detail 0;
  errmsg ← getitem_nat first 1;
  Ok (errmsg, Some retrys).

(** The loop of lines 145-154, with [n] iterations left and the current
    [post_data]. *)
Fixpoint retry_loop (users : list string) (api_url : string) (n : nat)
    (post_data : dict) : M value :=
  match n with
  | O => mret VNone
  | S n' =>
      '(errmsg, retrys) ← _post_and_parse api_url post_data (timeout CONFIG) (Some _parser);
      if is_none errmsg then
        shown ← lift (_log_users (VStr <$> users));
        logger_info [Text ("成功向" ++ shown ++ "发送消息")]
      else
        match retrys with
        | None =>
            shown ← lift (_log_users (VStr <$> users));
            logger_warning [Text ("向" ++ shown ++ "发送消息失败："); Formatted errmsg]
        | Some retrys =>
            let post_data := dict_set post_data "touser" (VList retrys) in
            shown ← lift (_log_users (VStr <$> users));
            failed ← lift (_log_users retrys);
            logger_warning [Text ("向" ++ shown ++ "发送时，" ++ failed ++ "失败：");
                            Formatted errmsg] ;;
            retry_loop users api_url n' post_data
        end
  end.

Definition initial_post_data (users : list string) (message : string)
    (card : bool) (url btntxt : option string) : dict :=
  let post_data := [("touser", VList (VStr <$> users));
                    ("content", VStr message);
                    ("toall", VBool true);
                    ("secret", hasher_encode CONFIG message)] in
  if card then
    let post_data := dict_set post_data "card" (VBool true) in
    let post_data := match url with
                     | Some u => dict_set post_data "url" (VStr u)
                     | None => post_data
                     end in
    match btntxt with
    | Some b => dict_set post_data "btntxt" (VStr b)
    | None => post_data
    end
  else post_data.

Definition _send_wechat (users : list string) (message api_url : string)
    (card : bool) (url btntxt : option string) (retry_times : Z) : M value :=
  retry_loop users api_url (Z.to_nat retry_times)
    (initial_post_data users message card url btntxt).

(** [_send_wechat] called on the arguments gathered in [a]. *)
Definition call_send_wechat (a : send_args) : M value :=
  _send_wechat (sa_users a) (sa_message a) (sa_api_url a) (sa_card a)
    (sa_url a) (sa_btntxt a) (sa_retry_times a).

(** *** [send_wechat] (lines 157-205)

    [ref_send_wechat a] is what a job keeps of [_send_wechat] and the
    arguments [a]. *)
Variable ref_send_wechat : send_args -> Call.

Definition send_wechat (users : list ident) (message api_path : string)
    (card : bool) (url btntxt : option string)
    (default multithread : bool) (retry_times : Z) : M value :=
  let users := _get_available_users users in
  if bool_decide (users = []) then logger_warning [Text "没有可用用户"]
  else
    let url := if card then
                 match url with
                 | Some u => Some (build_full_url u None)
                 | None => if default then Some DEFAULT_URL else None
                 end
               else url in
    let btntxt := if card then
                    match btntxt with
                    | None => if default then Some "详情" else None
                    | Some b => Some b
                    end
                  else btntxt in
    let retry_times := if negb (retry CONFIG) then 1 else retry_times in
    let total_ct := Z.of_nat (length users) in
    let caller := _get_caller call_send_wechat ref_send_wechat multithread NRNone in
    indices ← lift (range 0 total_ct (send_batch CONFIG));
    for_each indices (fun i =>
      let userids := slice users i (i + send_batch CONFIG) in
      caller {| sa_users := userids; sa_message := message;
                sa_api_url := build_full_url api_path (Some (api_url CONFIG));
                sa_card := card; sa_url := url; sa_btntxt := btntxt;
                sa_retry_times := retry_times |}).

End Wechat.

Arguments job : clear implicits.
Arguments world : clear implicits.
Arguments M : clear implicits.

(** The set that lines 61-66 of [_get_available_users] arrive at, from the
    set of the identifiers' strings. *)
Definition available (CONFIG : wechat_config) (users : gset string) : gset string :=
  let s := match receivers CONFIG with Some r => users ∩ r | None => users end in
  if bool_decide (blacklist CONFIG = ∅) then s else s ∖ blacklist CONFIG.

(** The request [_post_and_parse] makes for a payload it can encode. *)
Definition request_of (post_url : string) (post_data : dict) (timeout : value) : request :=
  {| req_url := post_url; req_data := VDict post_data; req_timeout := timeout |}.

(** ** Sample data *)

Definition example_config : wechat_config := {|
  receivers := Some {[ "1"; "2" ]};
  blacklist := {[ "2" ]};
  multithread := true;
  retry := true;
  send_batch := 2;
  timeout := VInt 15;
  api_url := "https://wechat.example";
  hasher_encode := fun message => VStr ("sha256:" ++ message);
|}.

(** The same without lists and without multithreading. *)
Definition example_config_sync : wechat_config := {|
  receivers := None;
  blacklist := ∅;
  multithread := false;
  retry := true;
  send_batch := 2;
  timeout := VInt 15;
  api_url := "https://wechat.example";
  hasher_encode := fun message => VStr ("sha256:" ++ message);
|}.

Definition example_build_full_url (path : string) (root : option string) : string :=
  default "https://yppf.example" root ++ path.

Definition json_response (v : value) : raw_response := {| response_json := Ok v |}.

(** A world whose server answers every request with [reply]. *)
Definition example_world (reply : res raw_response) : world send_args := {|
  w_server := fun _ _ => reply;
  w_posts := [];
  w_clock := fun n => 63800000000000000 + Z.of_nat n;
  w_reads := 0;
  w_jobs := [];
  w_log := [];
|}.

(** The three responses of the description. *)
Definition response_ok : value := VDict [("status", VInt 200)].

Definition response_bad : value :=
  VDict [("status", VInt 400); ("data", VDict [("errMsg", VStr "bad")])].

Definition response_partial : value :=
  VDict [("status", VInt 400);
         ("data", VDict [("detail", VList [VList [VStr "u1"; VStr "fail"];
                                           VList [VStr "u2"; VStr "fail"]])])].

(** A server that keeps reporting the one recipient [u] as failed. *)
Definition response_retry (u : string) : value :=
  VDict [("status", VInt 400);
         ("data", VDict [("detail", VList [VList [VStr u; VStr "fail"]])])].

Definition eleven_users : list string :=
  ["a"; "b"; "c"; "d"; "e"; "f"; "g"; "h"; "i"; "j"; "k"].

(** ** The invitation and the verification code *)

(** Arguments of one call of [_invite_to_wechat]. *)
Record invite_args := {
  ia_stu_id : string;
  ia_retry_times : Z;
}.

Definition newline : string := String "010"%char EmptyString.
Definition dquote : string := String "034"%char EmptyString.

Section Invite.

Context {Call : Type}.
Variable CONFIG : wechat_config.
Variable build_full_url : string -> option string -> string.

(** *** [_invite_to_wechat] (lines 223-239) *)

(** Its local [_parser], lines 230-231. *)
Definition _invite_parser (stu_id : string) (detail : value) : res ParseResult :=
  Ok (detail, Some [VStr stu_id]).

(** The loop of lines 233-239, with [n] iterations left. *)
Fixpoint invite_loop (stu_id INVITE_URL : string) (post_data : dict) (n : nat)
    : M Call value :=
  match n with
  | O => mret VNone
  | S n' =>
      '(errmsg, retrys) ← _post_and_parse INVITE_URL post_data (timeout CONFIG)
                             (Some (_invite_parser stu_id));
      if is_none errmsg then
        logger_info [Text ("成功向" ++ stu_id ++ "发送邀请")]
      else
        logger_warning [Text ("向" ++ stu_id ++ "发送邀请失败："); Formatted errmsg] ;;
        match retrys with
        | None => mret VNone
        | Some _ => invite_loop stu_id INVITE_URL post_data n'
        end
  end.

Definition _invite_to_wechat (stu_id : string) (retry_times : Z) : M Call value :=
  let INVITE_URL := build_full_url "/invite_user" (Some (api_url CONFIG)) in
  let post_data := [("user", VStr stu_id);
                    ("secret", hasher_encode CONFIG stu_id)] in
  invite_loop stu_id INVITE_URL post_data (Z.to_nat retry_times).

Definition call_invite_to_wechat (a : invite_args) : M Call value :=
  _invite_to_wechat (ia_stu_id a) (ia_retry_times a).

(** *** [invite_to_wechat] (lines 242-244)

    [ref_invite_to_wechat a] is what a job keeps of [_invite_to_wechat]
    and the arguments [a]. *)
Variable ref_invite_to_wechat : invite_args -> Call.

Definition invite_to_wechat (stu_id : ident) (retry_times : Z) (multithread : bool)
    : M Call value :=
  let caller := _get_caller CONFIG call_invite_to_wechat ref_invite_to_wechat
                  multithread NRNone in
  caller {| ia_stu_id := str stu_id; ia_retry_times := retry_times |}.

(** *** [send_verify_code] (lines 208-220)

    [strftime t format] is [t.strftime(format)]. *)
Variable strftime : datetime -> string -> string.
Variable ref_send_wechat : send_args -> Call.

Definition verify_message (captcha time : string) : string :=
  "YPPF登录验证" ++ newline
  ++ "您的账号正在进行企业微信验证" ++ newline ++ "本次请求的验证码为："
  ++ "<div class=" ++ dquote ++ "highlight" ++ dquote ++ ">" ++ captcha ++ "</div>"
  ++ "发送时间：" ++ time.

Definition send_verify_code (stu_id : ident) (captcha url : string) : M Call value :=
  now ← datetime_now;
  let time := strftime now "%m月%d日 %H:%M:%S" in
  let message := verify_message captcha time in
  (if String.eqb url "" then
     send_wechat CONFIG build_full_url ref_send_wechat [stu_id] message ""
       true None None true true 1
   else
     send_wechat CONFIG build_full_url ref_send_wechat [stu_id] message ""
       true (Some (build_full_url url None)) (Some "登录") true true 1) ;;
  mret VNone.

End Invite.

(** A world for invitations whose server answers every request with
    [reply]. *)
Definition example_invite_world (reply : res raw_response) : world invite_args := {|
  w_server := fun _ _ => reply;
  w_posts := [];
  w_clock := fun n => 63800000000000000 + Z.of_nat n;
  w_reads := 0;
  w_jobs := [];
  w_log := [];
|}.

(** A clock display for the samples. *)
Definition example_strftime (t : datetime) (format : string) : string :=
  "11月03日 13:32:00".

(** [example_config_sync] with another batch size. *)
Definition example_config_batch (size : Z) : wechat_config := {|
  receivers := None;
  blacklist := ∅;
  multithread := false;
  retry := true;
  send_batch := size;
  timeout := VInt 15;
  api_url := "https://wechat.example";
  hasher_encode := fun message => VStr ("sha256:" ++ message);
|}.

(** [example_config_sync] with an allow-list that is set and empty. *)
Definition example_config_closed : wechat_config := {|
  receivers := Some ∅;
  blacklist := ∅;
  multithread := false;
  retry := true;
  send_batch := 2;
  timeout := VInt 15;
  api_url := "https://wechat.example";
  hasher_encode := fun message => VStr ("sha256:" ++ message);
|}.

(** * Properties *)

(** ** Strings *)

Lemma string_take_drop (k : nat) (s : string) : string_take k s ++ string_drop k s = s.
Proof.
  revert s. induction k as [|k IH]; intros [|c s]; cbn; try done.
  change (String c (string_take k s ++ string_drop k s) = String c s). by rewrite IH.
Qed.

Lemma string_drop_length (k : nat) (s : string) :
  (String.length (string_drop k s) ≤ String.length s)%nat.
Proof.
  revert s. induction k as [|k IH]; intros [|c s]; cbn; try lia.
  specialize (IH s). lia.
Qed.

(** Iterating over a string loses nothing of it: the fuel is enough. *)
Lemma str_chars_concat (s : string) : String.concat "" (str_chars s) = s.
Proof.
  unfold str_chars.
  assert (∀ fuel s, (String.length s ≤ fuel)%nat ->
            String.concat "" (str_chars_aux fuel s) = s) as H; [|by apply H].
  clear s. induction fuel as [|fuel IH]; intros [|c s] Hlen; cbn in *; try done; [lia|].
  specialize (IH (string_drop (utf8_tail_len c) s)).
  pose proof (string_drop_length (utf8_tail_len c) s).
  destruct (str_chars_aux fuel (string_drop (utf8_tail_len c) s)) as [|x l] eqn:E.
  - rewrite <- (string_take_drop (utf8_tail_len c) s) at 2.
    rewrite <- IH by lia. cbn. f_equal.
    induction (string_take (utf8_tail_len c) s) as [|a t IHt]; [done|].
    change (String a t = String a (t ++ "")). by rewrite <- IHt.
  - rewrite IH by lia.
    change (String c (string_take (utf8_tail_len c) s ++ string_drop (utf8_tail_len c) s)
            = String c s).
    by rewrite string_take_drop.
Qed.

(** ** The user filter *)

Lemma sorted_Permutation (s : gset string) : sorted s ≡ₚ elements s.
Proof. apply merge_sort_Permutation. Qed.

Lemma elem_of_sorted (s : gset string) (x : string) : x ∈ sorted s ↔ x ∈ s.
Proof. rewrite sorted_Permutation. apply elem_of_elements. Qed.

Lemma list_to_set_sorted (s : gset string) : list_to_set (sorted s) = s.
Proof.
  apply set_eq. intros x.
  rewrite elem_of_list_to_set. apply elem_of_sorted.
Qed.

Lemma fmap_str_IdStr (l : list string) : str <$> (IdStr <$> l) = l.
Proof. induction l as [|x l IH]; [done | by cbn; f_equal]. Qed.

Lemma get_available_users_unfold CONFIG users :
  _get_available_users CONFIG users
  = sorted (available CONFIG (list_to_set (str <$> users))).
Proof. reflexivity. Qed.

Lemma elem_of_available CONFIG (s : gset string) x :
  x ∈ available CONFIG s ↔
  x ∈ s ∧ match receivers CONFIG with Some r => x ∈ r | None => True end
        ∧ x ∉ blacklist CONFIG.
Proof.
  unfold available. destruct (receivers CONFIG) as [r|]; case_bool_decide as Hb;
    try rewrite Hb; set_solver.
Qed.

Lemma available_idemp CONFIG s :
  available CONFIG (available CONFIG s) = available CONFIG s.
Proof. apply set_eq. intros x. rewrite !elem_of_available. tauto. Qed.

(** C4. [_get_available_users] returns a list of strings that is sorted and
    has no duplicates; its elements are exactly the strings of the given
    identifiers that are in the allow-list, when one is configured, and
    not in the block-list.  With allow-list {"1","2"} and block-list {"2"},
    the identifiers [1, 2, 2, 3] give ["1"]. *)
Theorem get_available_users_spec (CONFIG : wechat_config) (users : list ident) :
  let out := _get_available_users CONFIG users in
  StronglySorted String.le out ∧
  NoDup out ∧
  (∀ s : string, s ∈ out ↔
     (∃ u, u ∈ users ∧ s = str u) ∧
     match receivers CONFIG with Some r => s ∈ r | None => True end ∧
     s ∉ blacklist CONFIG) ∧
  _get_available_users example_config [IdInt 1; IdInt 2; IdInt 2; IdInt 3] = ["1"].
Proof.
  intros out. subst out. rewrite get_available_users_unfold.
  split; [|split; [|split]].
  - apply (StronglySorted_merge_sort _); apply _.
  - rewrite sorted_Permutation. apply NoDup_elements.
  - intros s.
    rewrite elem_of_sorted, elem_of_available, elem_of_list_to_set, list_elem_of_fmap.
    split; intros ([u [? ?]] & ? & ?); (split; [exists u|]); auto.
  - vm_compute. reflexivity.
Qed.

(** C9. Filtering the output of [_get_available_users] again gives the
    same list. *)
Theorem get_available_users_idempotent (CONFIG : wechat_config) (users : list ident) :
  _get_available_users CONFIG (IdStr <$> _get_available_users CONFIG users)
  = _get_available_users CONFIG users.
Proof.
  rewrite !get_available_users_unfold, fmap_str_IdStr, list_to_set_sorted.
  by rewrite available_idemp.
Qed.

(** ** Slices and [join] *)

Lemma str_join_strings (sep : string) (l : list string) :
  str_join sep (VStr <$> l) = Ok (String.concat sep l).
Proof.
  induction l as [|x [|y l] IH]; [done|done|].
  change (str_join sep (VStr <$> x :: y :: l))
    with (r ← str_join sep (VStr <$> y :: l); Ok (x ++ sep ++ r)%string).
  rewrite IH. reflexivity.
Qed.

Lemma slice_nonneg {A} (l : list A) (lo hi : Z) :
  0 <= lo -> 0 <= hi ->
  slice l lo hi = drop (Z.to_nat lo) (take (Z.to_nat hi) l).
Proof.
  intros Hlo Hhi. unfold slice, slice_bound.
  destruct (Z.ltb_spec lo 0); [lia|]. destruct (Z.ltb_spec hi 0); [lia|].
  destruct (Z.le_ge_cases hi (Z.of_nat (length l))) as [Hh|Hh].
  - rewrite (Z.min_l hi) by done.
    destruct (Z.le_ge_cases lo (Z.of_nat (length l))) as [Hl|Hl].
    + by rewrite (Z.min_l lo).
    + rewrite (Z.min_r lo), Nat2Z.id by done.
      rewrite !drop_ge; [done| |]; rewrite length_take; lia.
  - rewrite (Z.min_r hi), Nat2Z.id by done.
    rewrite firstn_all, (take_ge l (Z.to_nat hi)) by lia.
    destruct (Z.le_ge_cases lo (Z.of_nat (length l))) as [Hl|Hl].
    + by rewrite (Z.min_l lo).
    + rewrite (Z.min_r lo), Nat2Z.id by done.
      rewrite !drop_ge; [done| |]; lia.
Qed.

Lemma slice_last {A} (l : list A) (k : Z) :
  0 < k ->
  slice l (- k) (Z.of_nat (length l)) = drop (length l - Z.to_nat k) l.
Proof.
  intros Hk. unfold slice, slice_bound.
  destruct (Z.ltb_spec (- k) 0); [|lia].
  destruct (Z.ltb_spec (Z.of_nat (length l)) 0); [lia|].
  rewrite Z.min_id, Nat2Z.id, firstn_all. f_equal. lia.
Qed.

(** ** The log listing *)

Lemma log_users_strings (users : list string) :
  _log_users (VStr <$> users) =
  Ok (if decide (length users ≤ 10)%nat then String.concat ", " users
      else String.concat ", " (take 3 users ++ "..." :: drop (length users - 3) users)
           ++ "等" ++ str_of_Z (Z.of_nat (length users)) ++ "用户").
Proof.
  unfold _log_users. rewrite length_fmap.
  destruct (Z.leb_spec (Z.of_nat (length users)) 10) as [H|H].
  - rewrite decide_True by lia. apply str_join_strings.
  - rewrite decide_False by lia.
    rewrite <- (length_fmap VStr users) at 1.
    rewrite (slice_last _ 3), slice_nonneg by lia.
    change (Z.to_nat 3) with 3%nat. change (Z.to_nat 0) with 0%nat.
    rewrite drop_0, length_fmap, <- fmap_take, <- fmap_drop.
    replace ((VStr <$> take 3 users) ++ [VStr "..."]
             ++ (VStr <$> drop (length users - 3) users))%list
      with (VStr <$> (take 3 users ++ "..." :: drop (length users - 3) users)%list)
      by (by rewrite fmap_app).
    rewrite str_join_strings. reflexivity.
Qed.

(** C8. For a list of strings [_log_users] returns the whole list, joined
    by commas, when it has at most 10 entries; otherwise the first three
    entries, the marker "...", the last three entries, and the number of
    entries.  For 11 users: three entries, the marker, three entries and
    the count 11. *)
Theorem log_users_spec (users : list string) :
  _log_users (VStr <$> users) =
    Ok (if decide (length users ≤ 10)%nat then String.concat ", " users
        else String.concat ", " (take 3 users ++ "..." :: drop (length users - 3) users)
             ++ "等" ++ str_of_Z (Z.of_nat (length users)) ++ "用户")
  ∧ (∀ h1 h2 h3 m1 m2 m3 m4 m5 mid t1 t2 t3,
       _log_users (VStr <$> [h1; h2; h3] ++ [m1; m2; m3; m4; m5] ++ mid ++ [t1; t2; t3])%list
       = Ok (String.concat ", " [h1; h2; h3; "..."; t1; t2; t3]
             ++ "等" ++ str_of_Z (11 + Z.of_nat (length mid)) ++ "用户"))
  ∧ _log_users (VStr <$> eleven_users) = Ok "a, b, c, ..., i, j, k等11用户".
Proof.
  split; [apply log_users_strings|split].
  - intros. rewrite log_users_strings.
    repeat (rewrite ?length_app, ?length_cons; simpl length).
    rewrite decide_False by lia.
    replace (3 + (5 + (length mid + 3)) - 3)%nat with (8 + length mid)%nat by lia.
    simpl take.
    replace ([h1; h2; h3] ++ [m1; m2; m3; m4; m5] ++ mid ++ [t1; t2; t3])%list
      with (([h1; h2; h3] ++ [m1; m2; m3; m4; m5] ++ mid) ++ [t1; t2; t3])%list
      by (by rewrite <- !app_assoc).
    rewrite drop_app_length'; [|simpl; lia].
    replace (Z.of_nat (3 + (5 + (length mid + 3)))) with (11 + Z.of_nat (length mid)) by lia.
    reflexivity.
  - vm_compute. reflexivity.
Qed.

(** ** [_post_and_parse] *)

Section PostAndParse.
Context {Call : Type}.
Implicit Types (w : world Call) (post_data : dict).

Lemma json_dumps_Ok v body : json_dumps v = Ok body -> serialisable v = true ∧ body = v.
Proof. unfold json_dumps. destruct (serialisable v); [|done]. by intros [= <-]. Qed.

Lemma post_and_parse_unfold post_url post_data timeout detail_parser w :
  _post_and_parse post_url post_data timeout detail_parser w =
  if serialisable (VDict post_data) then
    (Ok (parse_reply detail_parser
           (w_server w (w_posts w) (request_of post_url post_data timeout))),
     add_post w (request_of post_url post_data timeout))
  else (Ok (VStr "JSON编码失败", None), w).
Proof.
  unfold _post_and_parse, json_dumps.
  destruct (serialisable (VDict post_data)); reflexivity.
Qed.

Lemma parse_body_detail detail_parser d st dd detail :
  dict_get d "status" = Some st -> eq_int st 200 = false ->
  dict_get d "data" = Some (VDict dd) ->
  dict_get dd "detail" = Some detail -> truthy detail = true ->
  parse_body detail_parser (VDict d) =
  match detail_parser with
  | None => Raise AssertionError
  | Some parser => parser detail
  end.
Proof.
  intros Hst Hne Hdata Hdetail Htrue. unfold parse_body. cbn.
  rewrite Hst. cbn. rewrite Hne, Hdata. cbn. rewrite Hdetail. cbn. rewrite Htrue.
  destruct detail_parser; reflexivity.
Qed.

End PostAndParse.

(** C3. [_post_and_parse] never raises, whatever the URL, the payload, the
    timeout and the detail parser: it always returns a result.  A payload
    that cannot be encoded, a request that fails and a response that
    cannot be decoded each give a message of their own with no retry
    list; an exception while the decoded response is read, one raised by
    the detail parser included, gives the message "回应解析失败" with no
    retry list. *)
Theorem post_and_parse_never_raises {Call : Type} (post_url : string)
    (post_data : dict) (timeout : value)
    (detail_parser : option (value -> res ParseResult)) (w : world Call) :
  let rq := request_of post_url post_data timeout in
  let run := _post_and_parse post_url post_data timeout detail_parser w in
  (∃ result w', run = (Ok result, w')) ∧
  (∀ e, json_dumps (VDict post_data) = Raise e ->
        run = (Ok (VStr "JSON编码失败", None), w)) ∧
  (∀ body e, json_dumps (VDict post_data) = Ok body ->
        w_server w (w_posts w) rq = Raise e ->
        run = (Ok (VStr "连接API失败", None), add_post w rq)) ∧
  (∀ body raw e, json_dumps (VDict post_data) = Ok body ->
        w_server w (w_posts w) rq = Ok raw -> response_json raw = Raise e ->
        run = (Ok (VStr "JSON解析失败", None), add_post w rq)) ∧
  (∀ body raw response e, json_dumps (VDict post_data) = Ok body ->
        w_server w (w_posts w) rq = Ok raw -> response_json raw = Ok response ->
        parse_body detail_parser response = Raise e ->
        run = (Ok (VStr "回应解析失败", None), add_post w rq)) ∧
  (∀ parser d st dd detail e, detail_parser = Some parser ->
        dict_get d "status" = Some st -> eq_int st 200 = false ->
        dict_get d "data" = Some (VDict dd) ->
        dict_get dd "detail" = Some detail -> truthy detail = true ->
        parser detail = Raise e ->
        parse_body detail_parser (VDict d) = Raise e) ∧
  NoDup ["JSON编码失败"; "连接API失败"; "JSON解析失败"; "回应解析失败"].
Proof.
  intros rq run. subst rq run. rewrite post_and_parse_unfold.
  repeat split.
  - destruct (serialisable (VDict post_data)); eauto.
  - unfold json_dumps. intros e. by destruct (serialisable (VDict post_data)).
  - intros body e [-> _]%json_dumps_Ok ->. reflexivity.
  - intros body raw e [-> _]%json_dumps_Ok -> Hj. cbn. by rewrite Hj.
  - intros body raw response e [-> _]%json_dumps_Ok -> Hj Hb. cbn. by rewrite Hj, Hb.
  - intros parser d st dd detail e -> ? ? ? ? ? <-.
    by erewrite parse_body_detail.
  - apply NoDup_ListNoDup. repeat constructor; cbn; intuition discriminate.
Qed.

Lemma post_and_parse_never_raises_witness :
  _post_and_parse "https://wechat.example/send" [("touser", VList [VStr "u1"])]
    (VInt 15) (Some _parser) (example_world (Raise ConnectionError))
  = (Ok (VStr "连接API失败", None),
     add_post (example_world (Raise ConnectionError))
       (request_of "https://wechat.example/send" [("touser", VList [VStr "u1"])] (VInt 15))).
Proof.
  destruct (post_and_parse_never_raises "https://wechat.example/send"
              [("touser", VList [VStr "u1"])] (VInt 15) (Some _parser)
              (example_world (Raise ConnectionError)))
    as (_ & _ & Hpost & _).
  eapply Hpost; reflexivity.
Defined.

(** C10. When the decoded response has a status other than 200 and its
    data has a true [detail], [_post_and_parse] called without a detail
    parser does not raise: the failed assertion is caught and the result
    is "回应解析失败" with no retry list. *)
Theorem post_and_parse_without_parser {Call : Type} (post_url : string)
    (post_data : dict) (timeout : value) (w : world Call)
    (raw : raw_response) (d dd : dict) (st detail : value) :
  serialisable (VDict post_data) = true ->
  w_server w (w_posts w) (request_of post_url post_data timeout) = Ok raw ->
  response_json raw = Ok (VDict d) ->
  dict_get d "status" = Some st -> eq_int st 200 = false ->
  dict_get d "data" = Some (VDict dd) ->
  dict_get dd "detail" = Some detail -> truthy detail = true ->
  _post_and_parse post_url post_data timeout None w
  = (Ok (VStr "回应解析失败", None),
     add_post w (request_of post_url post_data timeout)).
Proof.
  intros Hser Hsrv Hjson Hst Hne Hdata Hdetail Htrue.
  rewrite post_and_parse_unfold, Hser, Hsrv. cbn. rewrite Hjson.
  by rewrite (parse_body_detail None d st dd detail).
Qed.

Lemma post_and_parse_without_parser_witness :
  _post_and_parse "https://wechat.example/send" [("touser", VList [VStr "u1"])]
    (VInt 15) None (example_world (Ok (json_response response_partial)))
  = (Ok (VStr "回应解析失败", None),
     add_post (example_world (Ok (json_response response_partial)))
       (request_of "https://wechat.example/send" [("touser", VList [VStr "u1"])] (VInt 15))).
Proof.
  eapply (post_and_parse_without_parser _ _ _ _ (json_response response_partial));
    reflexivity.
Defined.

(** The local [_parser] on a detail list of [user, message] pairs. *)
Lemma parser_entries (u0 m0 : value) (entries : list (value * value)) :
  _parser (VList (VList [u0; m0] :: ((fun e => VList [e.1; e.2]) <$> entries)))
  = Ok (m0, Some (u0 :: (fst <$> entries))).
Proof.
  unfold _parser. cbn.
  assert (comprehension (fun x => getitem_nat x 0)
            ((fun e => VList [e.1; e.2]) <$> entries) = Ok (fst <$> entries)) as ->.
  { induction entries as [|[u m] l IH]; [done|]. cbn. cbn in IH. by rewrite IH. }
  reflexivity.
Qed.

(** C2. What [_post_and_parse] returns for a decoded response: [(None, [])]
    when its status equals 200; otherwise, when its data has a non-empty
    [detail], what the given detail parser returns for it (for the parser
    of [_send_wechat]: the message of the first entry and the recipients
    of all entries); otherwise the [errMsg] of its data with no retry
    list.  The three responses of the description give [(None, [])],
    [("bad", None)] and [("fail", ["u1", "u2"])]. *)
Theorem post_and_parse_shapes {Call : Type} (post_url : string)
    (post_data : dict) (timeout : value)
    (detail_parser : option (value -> res ParseResult)) (w : world Call)
    (raw : raw_response) (response : value) :
  serialisable (VDict post_data) = true ->
  w_server w (w_posts w) (request_of post_url post_data timeout) = Ok raw ->
  response_json raw = Ok response ->
  let result := (_post_and_parse post_url post_data timeout detail_parser w).1 in
  (∀ d st, response = VDict d ->
     dict_get d "status" = Some st -> eq_int st 200 = true ->
     result = Ok (VNone, Some [])) ∧
  (∀ d st dd detail parser r, response = VDict d ->
     dict_get d "status" = Some st -> eq_int st 200 = false ->
     dict_get d "data" = Some (VDict dd) ->
     dict_get dd "detail" = Some detail -> truthy detail = true ->
     detail_parser = Some parser -> parser detail = Ok r ->
     result = Ok r) ∧
  (∀ d st dd errmsg, response = VDict d ->
     dict_get d "status" = Some st -> eq_int st 200 = false ->
     dict_get d "data" = Some (VDict dd) ->
     truthy (default VNone (dict_get dd "detail")) = false ->
     dict_get dd "errMsg" = Some errmsg ->
     result = Ok (errmsg, None)) ∧
  (∀ u0 m0 entries,
     _parser (VList (VList [u0; m0] :: ((fun e => VList [e.1; e.2]) <$> entries)))
     = Ok (m0, Some (u0 :: (fst <$> entries)))) ∧
  (response = response_ok -> result = Ok (VNone, Some [])) ∧
  (response = response_bad -> result = Ok (VStr "bad", None)) ∧
  (response = response_partial -> detail_parser = Some _parser ->
     result = Ok (VStr "fail", Some [VStr "u1"; VStr "u2"])).
Proof.
  intros Hser Hsrv Hjson result. subst result.
  rewrite post_and_parse_unfold, Hser, Hsrv. cbn. rewrite Hjson.
  repeat split.
  - intros d st -> Hst Heq. unfold parse_body. cbn. rewrite Hst. cbn. by rewrite Heq.
  - intros d st dd detail parser r -> Hst Hne Hdata Hdetail Htrue -> Hr.
    by rewrite (parse_body_detail _ d st dd detail), Hr.
  - intros d st dd errmsg -> Hst Hne Hdata Hfalse Herr.
    unfold parse_body. cbn. rewrite Hst. cbn. rewrite Hne, Hdata. cbn.
    rewrite Hfalse, Herr. reflexivity.
  - apply parser_entries.
  - by intros ->.
  - by intros ->.
  - by intros -> ->.
Qed.

Lemma post_and_parse_shapes_witness :
  (_post_and_parse "https://wechat.example/send" [("touser", VList [VStr "u1"; VStr "u2"])]
     (VInt 15) (Some _parser) (example_world (Ok (json_response response_partial)))).1
  = Ok (VStr "fail", Some [VStr "u1"; VStr "u2"]).
Proof.
  apply (post_and_parse_shapes "https://wechat.example/send"
           [("touser", VList [VStr "u1"; VStr "u2"])] (VInt 15) (Some _parser)
           (example_world (Ok (json_response response_partial)))
           (json_response response_partial) response_partial);
    reflexivity.
Defined.

(** ** [_get_caller] *)

Lemma datetime_add_Ok (t : datetime) (d : timedelta) :
  0 <= t + d <= datetime_max -> datetime_add t d = Ok (t + d).
Proof.
  intros [H1 H2]. unfold datetime_add.
  destruct (Z.leb_spec 0 (t + d)); [|lia].
  destruct (Z.leb_spec (t + d) datetime_max); [done|lia].
Qed.

Section GetCaller.
Context {Call A : Type} (CONFIG : wechat_config).
Context (func : A -> M Call value) (func_ref : A -> Call).

(** The world after the job for [args] at time [t] was added. *)
Let scheduled (w : world Call) (args : A) (t : datetime) : world Call :=
  add_job w {| job_call := func_ref args; job_trigger := "date";
               job_next_run_time := t |}.

Lemma get_caller_off requested next_run_time :
  requested && multithread CONFIG = false ->
  _get_caller CONFIG func func_ref requested next_run_time = func.
Proof. intros Hoff. unfold _get_caller. by rewrite Hoff. Qed.

Lemma get_caller_at requested t args (w : world Call) :
  requested && multithread CONFIG = true ->
  _get_caller CONFIG func func_ref requested (NRDatetime t) args w
  = (Ok VNone, scheduled w args t).
Proof. intros Hon. unfold _get_caller. by rewrite Hon. Qed.

Lemma get_caller_after requested d args (w : world Call) :
  requested && multithread CONFIG = true ->
  0 <= w_clock w (w_reads w) + d <= datetime_max ->
  _get_caller CONFIG func func_ref requested (NRTimedelta d) args w
  = (Ok VNone, scheduled (tick w) args (w_clock w (w_reads w) + d)).
Proof.
  intros Hon Hrange. unfold _get_caller. rewrite Hon. cbn.
  unfold mbind, M_bind, datetime_now, lift, scheduler_add_job. cbn.
  by rewrite (datetime_add_Ok _ _ Hrange).
Qed.

Lemma get_caller_default requested args (w : world Call) :
  requested && multithread CONFIG = true ->
  0 <= w_clock w (w_reads w) + 5000000 <= datetime_max ->
  _get_caller CONFIG func func_ref requested NRNone args w
  = (Ok VNone, scheduled (tick w) args (w_clock w (w_reads w) + 5000000)).
Proof.
  intros Hon Hrange. unfold _get_caller. rewrite Hon. cbn.
  unfold mbind, M_bind, datetime_now, lift, scheduler_add_job. cbn.
  change (timedelta_seconds 5) with 5000000.
  by rewrite (datetime_add_Ok _ _ Hrange).
Qed.

End GetCaller.

(** C6. When multithreading is asked for and configured, calling what
    [_get_caller] returns does not run the callable: it adds one job with
    the "date" trigger for it, at the given [datetime], or at the current
    time plus the given [timedelta], or at the current time plus five
    seconds, and returns; nothing else of the world changes but the clock
    reading.  (The sum has to be a [datetime], up to the year 9999.)  When
    multithreading is off, [_get_caller] returns the callable itself. *)
Theorem get_caller_spec {Call A : Type} (CONFIG : wechat_config)
    (func : A -> M Call value) (func_ref : A -> Call)
    (requested : bool) (next_run_time : next_run) :
  let caller := _get_caller CONFIG func func_ref requested next_run_time in
  let scheduled (w : world Call) (args : A) (t : datetime) :=
    add_job w {| job_call := func_ref args; job_trigger := "date";
                 job_next_run_time := t |} in
  (requested && multithread CONFIG = false -> caller = func) ∧
  (requested && multithread CONFIG = true ->
   ∀ (args : A) (w : world Call),
     let now := w_clock w (w_reads w) in
     match next_run_time with
     | NRDatetime t => caller args w = (Ok VNone, scheduled w args t)
     | NRTimedelta d =>
         0 <= now + d <= datetime_max ->
         caller args w = (Ok VNone, scheduled (tick w) args (now + d))
     | NRNone =>
         0 <= now + 5000000 <= datetime_max ->
         caller args w = (Ok VNone, scheduled (tick w) args (now + 5000000))
     end).
Proof.
  intros caller scheduled. subst caller scheduled.
  split; [apply get_caller_off|].
  intros Hon args w. destruct next_run_time as [t|d|]; cbn zeta.
  - by apply get_caller_at.
  - by apply get_caller_after.
  - by apply get_caller_default.
Qed.

Lemma get_caller_spec_witness :
  let w := example_world (Ok (json_response response_ok)) in
  let args := {| sa_users := ["1"]; sa_message := "hello";
                 sa_api_url := "https://wechat.example/send"; sa_card := false;
                 sa_url := None; sa_btntxt := None; sa_retry_times := 3 |} in
  _get_caller example_config (call_send_wechat example_config) id true
    (NRTimedelta (timedelta_seconds 10)) args w
  = (Ok VNone,
     add_job (tick w) {| job_call := args; job_trigger := "date";
                         job_next_run_time := w_clock w (w_reads w) + 10000000 |}).
Proof.
  intros w args.
  apply (proj2 (get_caller_spec example_config (call_send_wechat example_config) id
                  true (NRTimedelta (timedelta_seconds 10))) eq_refl args w).
  vm_compute. split; discriminate.
Defined.

(** ** [send_wechat] *)

(** C7. When no recipient is left after filtering, [send_wechat] logs a
    warning and returns: no request is posted, no job is scheduled and
    nothing is raised. *)
Theorem send_wechat_no_users {Call : Type} (CONFIG : wechat_config)
    (build_full_url : string -> option string -> string)
    (ref_send_wechat : send_args -> Call)
    (users : list ident) (message api_path : string) (card : bool)
    (url btntxt : option string) (default multithread : bool) (retry_times : Z)
    (w : world Call) :
  _get_available_users CONFIG users = [] ->
  ∃ w', send_wechat CONFIG build_full_url ref_send_wechat users message api_path
          card url btntxt default multithread retry_times w = (Ok VNone, w')
        ∧ w_posts w' = w_posts w
        ∧ w_jobs w' = w_jobs w
        ∧ w_log w' = (w_log w ++ [(WARNING, [Text "没有可用用户"])])%list.
Proof.
  intros Hnone. unfold send_wechat. rewrite Hnone.
  rewrite bool_decide_eq_true_2 by done.
  eexists. split; [reflexivity|]. done.
Qed.

Lemma send_wechat_no_users_witness :
  ∃ w', send_wechat example_config example_build_full_url id
          [IdInt 2; IdInt 3] "hello" "/send" true None None true true 3
          (example_world (Ok (json_response response_ok))) = (Ok VNone, w')
        ∧ w_posts w' = []
        ∧ w_jobs w' = []
        ∧ w_log w' = [(WARNING, [Text "没有可用用户"])].
Proof.
  apply (send_wechat_no_users example_config example_build_full_url id
           [IdInt 2; IdInt 3] "hello" "/send" true None None true true 3
           (example_world (Ok (json_response response_ok)))).
  vm_compute. reflexivity.
Defined.

(** The batch that starts at index [k * size]. *)
Lemma slice_batch {A} (l : list A) (size : Z) (k : nat) :
  0 < size ->
  slice l (Z.of_nat k * size) (Z.of_nat k * size + size)
  = take (Z.to_nat size) (drop (k * Z.to_nat size) l).
Proof.
  intros Hs. rewrite slice_nonneg by lia.
  replace (Z.to_nat (Z.of_nat k * size)) with (k * Z.to_nat size)%nat by lia.
  replace (Z.to_nat (Z.of_nat k * size + size))
    with (k * Z.to_nat size + Z.to_nat size)%nat by lia.
  rewrite skipn_firstn_comm. f_equal. lia.
Qed.

Lemma concat_batches {A} (l : list A) (size : Z) (m : nat) :
  0 < size ->
  concat ((fun k : nat => slice l (Z.of_nat k * size) (Z.of_nat k * size + size)) <$> seq 0 m)
  = take (m * Z.to_nat size) l.
Proof.
  intros Hs. induction m as [|m IH]; [done|].
  rewrite seq_S, fmap_app, concat_app, IH. cbn [fmap list_fmap concat].
  rewrite app_nil_r, slice_batch, take_take_drop by done.
  f_equal. lia.
Qed.

Lemma range_from_zero (stop step : Z) :
  0 < step ->
  range 0 stop step
  = Ok ((fun k : nat => Z.of_nat k * step) <$> seq 0 (Z.to_nat ((stop + step - 1) / step))).
Proof.
  intros Hs. unfold range.
  destruct (Z.eqb_spec step 0); [lia|]. destruct (Z.ltb_spec 0 step); [|lia].
  by rewrite Z.sub_0_r.
Qed.

Lemma for_each_fmap {Call A B} (f : A -> B) (l : list A) (body : B -> M Call value) :
  for_each (f <$> l) body = for_each l (fun x => body (f x)).
Proof. induction l as [|x l IH]; [done|]. cbn. by rewrite IH. Qed.

(** With multithreading on, a loop of calls only adds jobs, one per call. *)
Lemma for_each_scheduled {Call A B : Type} (CONFIG : wechat_config)
    (func : A -> M Call value) (func_ref : A -> Call) (requested : bool)
    (args : B -> A) (l : list B) :
  requested && multithread CONFIG = true ->
  ∀ w : world Call,
    (∀ k, 0 <= w_clock w k + 5000000 <= datetime_max) ->
    ∃ w', for_each l (fun b => _get_caller CONFIG func func_ref requested NRNone (args b)) w
          = (Ok VNone, w')
          ∧ w_clock w' = w_clock w
          ∧ w_posts w' = w_posts w
          ∧ w_log w' = w_log w
          ∧ job_call <$> w_jobs w' = ((job_call <$> w_jobs w) ++ (func_ref ∘ args <$> l))%list.
Proof.
  intros Hon. induction l as [|b l IH]; intros w Hclock.
  { exists w. cbn. by rewrite app_nil_r. }
  cbn [for_each]. unfold mbind at 1. unfold M_bind at 1.
  rewrite (get_caller_default CONFIG func func_ref requested (args b) w Hon (Hclock _)).
  match goal with
  | |- context [for_each l _ ?w1] => destruct (IH w1) as (w' & Hrun & Hc & Hp & Hl & Hj)
  end.
  { done. }
  exists w'. rewrite Hrun, Hc, Hp, Hl, Hj. cbn.
  rewrite fmap_app. cbn. by rewrite <- app_assoc.
Qed.

(** C5. With a positive batch size, [send_wechat] calls the caller once
    per batch, in order, with that batch as the recipients; every batch is
    part of the filtered recipients, the batches together are the filtered
    recipients, and no batch is longer than the batch size.  (A call that
    raises ends the run, as in any loop.)  With multithreading on, the
    jobs added are those of the batches, one each and in order, and no
    request is posted. *)
Theorem send_wechat_batches {Call : Type} (CONFIG : wechat_config)
    (build_full_url : string -> option string -> string)
    (ref_send_wechat : send_args -> Call)
    (users : list ident) (message api_path : string) (card : bool)
    (url btntxt : option string) (default multithread : bool) (retry_times : Z) :
  0 < send_batch CONFIG ->
  let filtered := _get_available_users CONFIG users in
  let caller := _get_caller CONFIG (call_send_wechat CONFIG) ref_send_wechat
                  multithread NRNone in
  ∃ (batches : list (list string)) (args : list string -> send_args),
    concat batches = filtered ∧
    Forall (fun b => b ⊆ filtered ∧ Z.of_nat (length b) <= send_batch CONFIG) batches ∧
    (∀ b, sa_users (args b) = b) ∧
    ∀ w : world Call,
      let run := send_wechat CONFIG build_full_url ref_send_wechat users message
                   api_path card url btntxt default multithread retry_times w in
      run = (if bool_decide (filtered = []) then logger_warning [Text "没有可用用户"] w
             else for_each batches (fun b => caller (args b)) w) ∧
      (multithread && Config.multithread CONFIG = true -> filtered ≠ [] ->
       (∀ k, 0 <= w_clock w k + 5000000 <= datetime_max) ->
       run.1 = Ok VNone ∧
       w_posts run.2 = w_posts w ∧
       job_call <$> w_jobs run.2
       = ((job_call <$> w_jobs w) ++ (ref_send_wechat ∘ args <$> batches))%list).
Proof.
  intros Hsize filtered caller.
  set (size := send_batch CONFIG) in *.
  set (m := Z.to_nat ((Z.of_nat (length filtered) + size - 1) / size)).
  exists ((fun k : nat => slice filtered (Z.of_nat k * size) (Z.of_nat k * size + size))
            <$> seq 0 m).
  set (mk := fun b =>
    {| sa_users := b; sa_message := message;
       sa_api_url := build_full_url api_path (Some (api_url CONFIG));
       sa_card := card;
       sa_url := if card then
                   match url with
                   | Some u => Some (build_full_url u None)
                   | None => if default then Some (DEFAULT_URL build_full_url) else None
                   end
                 else url;
       sa_btntxt := if card then
                      match btntxt with
                      | None => if default then Some "详情" else None
                      | Some b => Some b
                      end
                    else btntxt;
       sa_retry_times := if negb (retry CONFIG) then 1 else retry_times |}).
  exists mk.
  split; [|split; [|split]].
  - rewrite concat_batches by done. apply take_ge.
    assert (Z.of_nat (length filtered) <= Z.of_nat m * size); [|lia].
    subst m. rewrite Z2Nat.id by (apply Z.div_pos; lia).
    pose proof (Z.mul_div_le (Z.of_nat (length filtered) + size - 1) size Hsize) as H1.
    pose proof (Z.mod_pos_bound (Z.of_nat (length filtered) + size - 1) size Hsize) as H2.
    pose proof (Z.div_mod (Z.of_nat (length filtered) + size - 1) size) as H3.
    lia.
  - apply Forall_fmap, Forall_forall. intros k _. cbn.
    rewrite slice_batch by done. split.
    + etrans; [apply subseteq_take|apply subseteq_drop].
    + rewrite length_take. lia.
  - reflexivity.
  - intros w.
    assert (send_wechat CONFIG build_full_url ref_send_wechat users message
              api_path card url btntxt default multithread retry_times w
            = (if bool_decide (filtered = []) then logger_warning [Text "没有可用用户"] w
               else for_each
                      ((fun k : nat =>
                          slice filtered (Z.of_nat k * size) (Z.of_nat k * size + size))
                         <$> seq 0 m)
                      (fun b => caller (mk b)) w)) as Hrun.
    { unfold send_wechat. fold filtered. fold size.
      case_bool_decide; [reflexivity|].
      rewrite range_from_zero by done. fold m.
      rewrite for_each_fmap.
      unfold mbind at 1. unfold M_bind, lift.
      rewrite for_each_fmap. reflexivity. }
    cbn zeta. split; [exact Hrun|].
    intros Hon Hne Hclock. rewrite Hrun, bool_decide_eq_false_2 by done.
    subst caller.
    destruct (for_each_scheduled CONFIG (call_send_wechat CONFIG) ref_send_wechat
                multithread mk
                ((fun k : nat =>
                    slice filtered (Z.of_nat k * size) (Z.of_nat k * size + size))
                   <$> seq 0 m) Hon w Hclock)
      as (w' & -> & _ & Hp & _ & Hj).
    done.
Qed.

Lemma send_wechat_batches_witness :
  ∃ (batches : list (list string)) (args : list string -> send_args),
    concat batches = ["1"; "2"; "3"] ∧
    Forall (fun b => b ⊆ ["1"; "2"; "3"] ∧ Z.of_nat (length b) <= 2) batches ∧
    (∀ b, sa_users (args b) = b) ∧
    ∀ w : world send_args,
      send_wechat example_config_sync example_build_full_url id
        [IdInt 3; IdInt 1; IdStr "2"] "hello" "/send" true None None true true 3 w
      = for_each batches (fun b => call_send_wechat example_config_sync (args b)) w.
Proof.
  destruct (send_wechat_batches example_config_sync example_build_full_url id
              [IdInt 3; IdInt 1; IdStr "2"] "hello" "/send" true None None true true 3
              eq_refl)
    as (batches & args & Hconcat & Hall & Hargs & Hrun).
  exists batches, args. repeat (split; [assumption|]).
  intros w. exact (proj1 (Hrun w)).
Defined.

(** ** [_send_wechat] *)

Lemma dict_get_set (d : dict) (k : string) (v : value) :
  dict_get (dict_set d k v) k = Some v.
Proof.
  induction d as [|[k' v'] d IH]; cbn.
  - by rewrite String.eqb_refl.
  - destruct (String.eqb k' k) eqn:E; cbn; by rewrite E.
Qed.

Lemma dict_get_set_ne (d : dict) (k k' : string) (v : value) :
  k ≠ k' -> dict_get (dict_set d k v) k' = dict_get d k'.
Proof.
  intros Hne. induction d as [|[k0 v0] d IH]; cbn.
  - by apply String.eqb_neq in Hne as ->.
  - destruct (String.eqb_spec k0 k) as [->|]; cbn; [|by rewrite IH].
    by apply String.eqb_neq in Hne as ->.
Qed.

Lemma serialisable_strings (l : list string) :
  forallb serialisable (VStr <$> l) = true.
Proof. induction l; [done|]. done. Qed.

Lemma serialisable_dict_set (d : dict) (k : string) (v : value) :
  serialisable (VDict d) = true -> serialisable v = true ->
  serialisable (VDict (dict_set d k v)) = true.
Proof.
  intros Hd Hv. induction d as [|[k' v'] d IH]; cbn in *.
  - by rewrite Hv.
  - apply andb_prop in Hd as [H1 H2].
    destruct (String.eqb k' k); cbn; [by rewrite Hv|].
    rewrite H1. by apply IH.
Qed.

Lemma serialisable_initial CONFIG users message card url btntxt :
  serialisable (VDict (initial_post_data CONFIG users message card url btntxt))
  = serialisable (hasher_encode CONFIG message).
Proof.
  unfold initial_post_data.
  destruct card, url, btntxt; cbn; rewrite serialisable_strings;
    by destruct (serialisable (hasher_encode CONFIG message)).
Qed.

Section Retry.
Context {Call : Type} (CONFIG : wechat_config) (users : list string) (api_url : string).
Implicit Types (w : world Call) (post_data : dict).

(** One round of the loop, by the outcome of the attempt. *)
Lemma retry_loop_step n post_data w :
  retry_loop CONFIG users api_url (S n) post_data w =
  let shown := if decide (length users ≤ 10)%nat then String.concat ", " users
      else String.concat ", " (take 3 users ++ "..." :: drop (length users - 3) users)
           ++ "等" ++ str_of_Z (Z.of_nat (length users)) ++ "用户" in
  if serialisable (VDict post_data) then
    let rq := request_of api_url post_data (timeout CONFIG) in
    let w1 := add_post w rq in
    let out := parse_reply (Some _parser) (w_server w (w_posts w) rq) in
    if is_none out.1 then
      (Ok VNone, add_log w1 INFO [Text ("成功向" ++ shown ++ "发送消息")])
    else
      match out.2 with
      | None =>
          (Ok VNone,
           add_log w1 WARNING [Text ("向" ++ shown ++ "发送消息失败："); Formatted out.1])
      | Some retrys =>
          match _log_users retrys with
          | Raise e => (Raise e, w1)
          | Ok failed =>
              retry_loop CONFIG users api_url n
                (dict_set post_data "touser" (VList retrys))
                (add_log w1 WARNING
                   [Text ("向" ++ shown ++ "发送时，" ++ failed ++ "失败：");
                    Formatted out.1])
          end
      end
  else
    (Ok VNone,
     add_log w WARNING [Text ("向" ++ shown ++ "发送消息失败：");
                        Formatted (VStr "JSON编码失败")]).
Proof.
  cbn zeta. cbn [retry_loop]. unfold mbind at 1. unfold M_bind at 1.
  rewrite post_and_parse_unfold.
  destruct (serialisable (VDict post_data)).
  - destruct (parse_reply _ _) as [errmsg retrys]. cbn [fst snd].
    destruct (is_none errmsg).
    + unfold mbind, M_bind, lift. by rewrite log_users_strings.
    + destruct retrys as [retrys|].
      * unfold mbind, M_bind, lift. rewrite log_users_strings.
        by destruct (_log_users retrys).
      * unfold mbind, M_bind, lift. by rewrite log_users_strings.
  - cbn. unfold mbind, M_bind, lift. by rewrite log_users_strings.
Qed.

(** A run of the loop that made the one attempt [rq]. *)
Ltac single_attempt rq :=
  eexists _, _, [rq];
  split; [reflexivity|]; split; [reflexivity|]; split; [reflexivity|];
  split; [cbn; lia|]; split; [by intros p [= <-]|];
  split; [by intros [|i] p q|by intros [|i] p].

Lemma retry_loop_trace n : ∀ post_data w,
  ∃ (r : res value) (w' : world Call) (posts : list request),
    retry_loop CONFIG users api_url n post_data w = (r, w') ∧
    w_server w' = w_server w ∧
    w_posts w' = (w_posts w ++ posts)%list ∧
    (length posts ≤ n)%nat ∧
    (∀ p, posts !! 0%nat = Some p ->
          p = request_of api_url post_data (timeout CONFIG)) ∧
    (∀ i p q, posts !! i = Some p -> posts !! S i = Some q ->
       ∃ pd errmsg retrys,
         p = request_of api_url pd (timeout CONFIG) ∧
         parse_reply (Some _parser) (w_server w (w_posts w ++ take i posts) p)
         = (errmsg, Some retrys) ∧
         is_none errmsg = false ∧
         q = request_of api_url (dict_set pd "touser" (VList retrys)) (timeout CONFIG)) ∧
    (∀ i p, posts !! i = Some p ->
       let out := parse_reply (Some _parser) (w_server w (w_posts w ++ take i posts) p) in
       is_none out.1 = true ∨ out.2 = None -> S i = length posts).
Proof.
  induction n as [|n IH]; intros post_data w.
  { exists (Ok VNone), w, []. cbn. rewrite app_nil_r. repeat split; try done. }
  rewrite retry_loop_step. cbn zeta.
  destruct (serialisable (VDict post_data)); cycle 1.
  { eexists _, _, []. cbn. rewrite app_nil_r.
    repeat split; try done. lia. }
  set (rq := request_of api_url post_data (timeout CONFIG)).
  destruct (parse_reply (Some _parser) (w_server w (w_posts w) rq))
    as [errmsg retrys] eqn:Hout.
  cbn [fst snd].
  destruct (is_none errmsg) eqn:Hnone; [|destruct retrys as [retrys|]];
    [single_attempt rq| |single_attempt rq].
  destruct (_log_users retrys) as [failed|e]; [|single_attempt rq].
  match goal with
  | |- context [retry_loop _ _ _ n ?pd ?w2] =>
      destruct (IH pd w2)
        as (r & w' & posts & Hrun & Hsrv & Hposts & Hlen & Hfirst & Hchain & Hstop)
  end.
  cbn in Hsrv, Hposts, Hchain, Hstop.
  exists r, w', (rq :: posts). rewrite Hrun.
  split; [done|]. split; [done|]. split; [by rewrite Hposts, <- app_assoc|].
  split; [cbn; lia|]. split; [by intros p [= <-]|]. split.
  - intros [|i] p q Hp Hq; cbn in Hp, Hq.
    + injection Hp as <-. exists post_data, errmsg, retrys.
      cbn. rewrite app_nil_r. auto.
    + destruct (Hchain i p q Hp Hq) as (pd & e' & rs & ? & Hr & ? & ?).
      exists pd, e', rs. cbn [take]. rewrite cons_middle, app_assoc. auto.
  - intros [|i] p Hp; cbn in Hp.
    + injection Hp as <-. cbn. rewrite app_nil_r, Hout. cbn.
      rewrite Hnone. intros [?|?]; done.
    + intros Hor. cbn. f_equal. apply (Hstop i p Hp).
      cbn [take] in Hor. by rewrite cons_middle, app_assoc in Hor.
Qed.

Lemma retry_loop_same_recipient (u : string) (w : world Call) :
  (∀ hist rq, ∃ errmsg,
     parse_reply (Some _parser) (w_server w hist rq) = (errmsg, Some [VStr u])
     ∧ is_none errmsg = false) ->
  ∀ n post_data (w1 : world Call),
    w_server w1 = w_server w -> serialisable (VDict post_data) = true ->
    ∃ w', retry_loop CONFIG users api_url n post_data w1 = (Ok VNone, w')
          ∧ length (w_posts w') = (length (w_posts w1) + n)%nat.
Proof.
  intros Hsrv. induction n as [|n IH]; intros post_data w1 Hw1 Hser.
  { exists w1. split; [done|]. lia. }
  rewrite retry_loop_step. cbn zeta. rewrite Hser, Hw1.
  destruct (Hsrv (w_posts w1) (request_of api_url post_data (timeout CONFIG)))
    as (errmsg & -> & Hnone).
  cbn [fst snd]. rewrite Hnone.
  change (_log_users [VStr u]) with (Ok (A:=string) u). cbn iota.
  match goal with
  | |- context [retry_loop _ _ _ n ?pd ?w2] =>
      destruct (IH pd w2) as (w' & Hrun & Hlen)
  end.
  - done.
  - by apply serialisable_dict_set.
  - exists w'. split; [done|]. rewrite Hlen. cbn. rewrite length_app. cbn. lia.
Qed.

End Retry.

(** C1. [_send_wechat] makes at most [retry_times] attempts.  The first
    goes to all the users; each further attempt follows a partial failure
    (a message and a retry list) and differs from the one before only in
    the recipients, which are exactly that retry list; after an attempt
    whose outcome is a success (no message) or a hard failure (no retry
    list) there is no further attempt.  With [retry_times = 3] and
    answers that always name the same one recipient for a retry there are
    exactly 3 attempts and nothing is raised. *)
Theorem send_wechat_retries {Call : Type} (CONFIG : wechat_config)
    (users : list string) (message api_url : string) (card : bool)
    (url btntxt : option string) (retry_times : Z) (w : world Call) :
  ∃ (r : res value) (w' : world Call) (posts : list request),
    _send_wechat CONFIG users message api_url card url btntxt retry_times w = (r, w') ∧
    w_posts w' = (w_posts w ++ posts)%list ∧
    (length posts ≤ Z.to_nat retry_times)%nat ∧
    (∀ p, posts !! 0%nat = Some p ->
       ∃ pd, p = request_of api_url pd (timeout CONFIG)
             ∧ dict_get pd "touser" = Some (VList (VStr <$> users))) ∧
    (∀ i p q, posts !! i = Some p -> posts !! S i = Some q ->
       ∃ pd errmsg retrys,
         p = request_of api_url pd (timeout CONFIG) ∧
         parse_reply (Some _parser) (w_server w (w_posts w ++ take i posts) p)
         = (errmsg, Some retrys) ∧
         is_none errmsg = false ∧
         q = request_of api_url (dict_set pd "touser" (VList retrys)) (timeout CONFIG) ∧
         dict_get (dict_set pd "touser" (VList retrys)) "touser" = Some (VList retrys) ∧
         (∀ k, k ≠ "touser" ->
               dict_get (dict_set pd "touser" (VList retrys)) k = dict_get pd k)) ∧
    (∀ i p, posts !! i = Some p ->
       let out := parse_reply (Some _parser) (w_server w (w_posts w ++ take i posts) p) in
       is_none out.1 = true ∨ out.2 = None -> S i = length posts) ∧
    (∀ u, retry_times = 3 ->
       serialisable (hasher_encode CONFIG message) = true ->
       (∀ hist rq, ∃ errmsg,
          parse_reply (Some _parser) (w_server w hist rq) = (errmsg, Some [VStr u])
          ∧ is_none errmsg = false) ->
       r = Ok VNone ∧ length posts = 3%nat).
Proof.
  unfold _send_wechat.
  destruct (retry_loop_trace CONFIG users api_url (Z.to_nat retry_times)
              (initial_post_data CONFIG users message card url btntxt) w)
    as (r & w' & posts & Hrun & Hsrv & Hposts & Hlen & Hfirst & Hchain & Hstop).
  exists r, w', posts. repeat (split; [done|]).
  split; [|split; [|split]].
  - intros p Hp. eexists. split; [by apply Hfirst|].
    unfold initial_post_data. by destruct card, url, btntxt.
  - intros i p q Hp Hq. destruct (Hchain i p q Hp Hq) as (pd & e & rs & ? & ? & ? & ?).
    exists pd, e, rs. repeat (split; [done|]).
    split; [apply dict_get_set|]. intros k Hk. by apply dict_get_set_ne.
  - done.
  - intros u -> Hser Hall.
    destruct (retry_loop_same_recipient CONFIG users api_url u w Hall 3%nat
                (initial_post_data CONFIG users message card url btntxt) w eq_refl)
      as (w2 & Hrun2 & Hlen2).
    { by rewrite serialisable_initial. }
    change (Z.to_nat 3) with 3%nat in Hrun. rewrite Hrun in Hrun2.
    injection Hrun2 as -> <-. split; [done|].
    rewrite Hposts, length_app in Hlen2. lia.
Qed.

Lemma send_wechat_retries_witness :
  ∃ w', _send_wechat example_config ["u1"; "u2"] "hello" "https://wechat.example/send"
          true None None 3 (example_world (Ok (json_response (response_retry "u1"))))
        = (Ok VNone, w')
        ∧ length (w_posts w') = 3%nat.
Proof.
  destruct (send_wechat_retries example_config ["u1"; "u2"] "hello"
              "https://wechat.example/send" true None None 3
              (example_world (Ok (json_response (response_retry "u1")))))
    as (r & w' & posts & Hrun & Hposts & _ & _ & _ & _ & Hthree).
  destruct (Hthree "u1" eq_refl eq_refl) as [-> Hlen].
  { intros hist rq. exists (VStr "fail"). split; reflexivity. }
  exists w'. split; [exact Hrun|]. rewrite Hposts. exact Hlen.
Defined.

(** * Further properties *)

(** ** [_invite_to_wechat] *)

Section InviteLoop.
Context {Call : Type} (CONFIG : wechat_config) (stu_id INVITE_URL : string)
  (post_data : dict).
Implicit Types (w : world Call).

(** One round of the loop, by the outcome of the attempt. *)
Lemma invite_loop_step n w :
  invite_loop CONFIG stu_id INVITE_URL post_data (S n) w =
  if serialisable (VDict post_data) then
    let rq := request_of INVITE_URL post_data (timeout CONFIG) in
    let out := parse_reply (Some (_invite_parser stu_id)) (w_server w (w_posts w) rq) in
    if is_none out.1 then
      (Ok VNone, add_log (add_post w rq) INFO [Text ("成功向" ++ stu_id ++ "发送邀请")])
    else
      let w1 := add_log (add_post w rq) WARNING
                  [Text ("向" ++ stu_id ++ "发送邀请失败："); Formatted out.1] in
      match out.2 with
      | None => (Ok VNone, w1)
      | Some _ => invite_loop CONFIG stu_id INVITE_URL post_data n w1
      end
  else
    (Ok VNone,
     add_log w WARNING [Text ("向" ++ stu_id ++ "发送邀请失败：");
                        Formatted (VStr "JSON编码失败")]).
Proof.
  cbn zeta. cbn [invite_loop]. unfold mbind at 1. unfold M_bind at 1.
  rewrite post_and_parse_unfold.
  destruct (serialisable (VDict post_data)); [|reflexivity].
  destruct (parse_reply _ _) as [errmsg retrys]. cbn [fst snd].
  destruct (is_none errmsg); [reflexivity|].
  by destruct retrys.
Qed.

Lemma invite_loop_trace n : ∀ w,
  ∃ (w' : world Call) (k : nat),
    invite_loop CONFIG stu_id INVITE_URL post_data n w = (Ok VNone, w') ∧
    (k ≤ n)%nat ∧
    w_server w' = w_server w ∧
    w_posts w' = (w_posts w
                  ++ replicate k (request_of INVITE_URL post_data (timeout CONFIG)))%list ∧
    w_jobs w' = w_jobs w ∧
    w_reads w' = w_reads w ∧
    (length (w_log w') ≤ length (w_log w) + n)%nat ∧
    (serialisable (VDict post_data) = true ->
     length (w_log w') = (length (w_log w) + k)%nat).
Proof.
  induction n as [|n IH]; intros w.
  { exists w, 0%nat. cbn. rewrite app_nil_r. repeat split; try done; lia. }
  rewrite invite_loop_step. cbn zeta.
  destruct (serialisable (VDict post_data)) eqn:Hser; cycle 1.
  { eexists _, 0%nat. cbn. rewrite app_nil_r.
    repeat split; try done; cbn; rewrite ?length_app; simpl length; lia. }
  set (rq := request_of INVITE_URL post_data (timeout CONFIG)).
  destruct (parse_reply _ _) as [errmsg retrys]. cbn [fst snd].
  destruct (is_none errmsg); [|destruct retrys as [retrys|]].
  - eexists _, 1%nat. cbn.
    repeat split; try done; cbn; rewrite ?length_app; simpl length; lia.
  - match goal with
    | |- context [invite_loop _ _ _ _ n ?w1] =>
        destruct (IH w1) as (w' & k & Hrun & Hk & Hsrv & Hposts & Hjobs & Hreads & Hlog & Hlog')
    end.
    cbn in Hsrv, Hposts, Hjobs, Hreads, Hlog, Hlog'. rewrite length_app in Hlog, Hlog'.
    cbn in Hlog, Hlog'.
    exists w', (S k). rewrite Hrun, Hposts, <- app_assoc. cbn.
    repeat split; try done; try lia; intros _; specialize (Hlog' eq_refl); lia.
  - eexists _, 1%nat. cbn.
    repeat split; try done; cbn; rewrite ?length_app; simpl length; lia.
Qed.

End InviteLoop.

(** X1. [_invite_to_wechat] never raises and makes at most [retry_times]
    requests, all of them the same request: the invitation URL with the
    user and the secret of the user.  It schedules nothing, writes at most
    one log record per round, and exactly one per request when the secret
    can be encoded. *)
Theorem invite_same_request {Call : Type} (CONFIG : wechat_config)
    (build_full_url : string -> option string -> string)
    (stu_id : string) (retry_times : Z) (w : world Call) :
  let rq := request_of (build_full_url "/invite_user" (Some (api_url CONFIG)))
              [("user", VStr stu_id); ("secret", hasher_encode CONFIG stu_id)]
              (timeout CONFIG) in
  ∃ (w' : world Call) (k : nat),
    _invite_to_wechat CONFIG build_full_url stu_id retry_times w = (Ok VNone, w') ∧
    (k ≤ Z.to_nat retry_times)%nat ∧
    w_posts w' = (w_posts w ++ replicate k rq)%list ∧
    w_jobs w' = w_jobs w ∧
    (length (w_log w') ≤ length (w_log w) + Z.to_nat retry_times)%nat ∧
    (serialisable (hasher_encode CONFIG stu_id) = true ->
     length (w_log w') = (length (w_log w) + k)%nat).
Proof.
  intros rq. unfold _invite_to_wechat.
  destruct (invite_loop_trace CONFIG stu_id
              (build_full_url "/invite_user" (Some (api_url CONFIG)))
              [("user", VStr stu_id); ("secret", hasher_encode CONFIG stu_id)]
              (Z.to_nat retry_times) w)
    as (w' & k & Hrun & Hk & _ & Hposts & Hjobs & _ & Hlog & Hlog').
  exists w', k. repeat (split; [done|]).
  intros Hser. apply Hlog'. cbn. by rewrite Hser.
Qed.

Lemma invite_same_request_witness :
  ∃ (w' : world send_args) (k : nat),
    _invite_to_wechat example_config example_build_full_url "u1" 3
      (example_world (Ok (json_response response_bad))) = (Ok VNone, w') ∧
    (k ≤ 3)%nat ∧
    w_posts w' = replicate k (request_of "https://wechat.example/invite_user"
                                [("user", VStr "u1"); ("secret", VStr "sha256:u1")]
                                (VInt 15)) ∧
    length (w_log w') = k.
Proof.
  destruct (invite_same_request example_config example_build_full_url "u1" 3
              (example_world (Ok (json_response response_bad))))
    as (w' & k & Hrun & Hk & Hposts & _ & _ & Hlog).
  exists w', k. repeat (split; [assumption|]). exact (Hlog eq_refl).
Defined.

(** A response with a status other than 200 and a true [detail]. *)
Lemma parse_reply_invite_detail (stu_id : string) (raw : raw_response)
    (d dd : dict) (st detail : value) :
  response_json raw = Ok (VDict d) ->
  dict_get d "status" = Some st -> eq_int st 200 = false ->
  dict_get d "data" = Some (VDict dd) ->
  dict_get dd "detail" = Some detail -> truthy detail = true ->
  parse_reply (Some (_invite_parser stu_id)) (Ok raw) = (detail, Some [VStr stu_id])
  ∧ is_none detail = false.
Proof.
  intros Hjson Hst Hne Hdata Hdetail Htrue. split.
  - cbn. rewrite Hjson. by rewrite (parse_body_detail _ d st dd detail).
  - by destruct detail.
Qed.

(** X2. When every answer has a status other than 200 and a true
    [detail], [_invite_to_wechat] uses up its retries: [retry_times]
    requests and as many warnings, no success record. *)
Theorem invite_retries_every_detail {Call : Type} (CONFIG : wechat_config)
    (build_full_url : string -> option string -> string)
    (stu_id : string) (retry_times : Z) (w : world Call) :
  serialisable (hasher_encode CONFIG stu_id) = true ->
  (∀ hist rq, ∃ raw d st dd detail,
     w_server w hist rq = Ok raw ∧ response_json raw = Ok (VDict d) ∧
     dict_get d "status" = Some st ∧ eq_int st 200 = false ∧
     dict_get d "data" = Some (VDict dd) ∧
     dict_get dd "detail" = Some detail ∧ truthy detail = true) ->
  let rq := request_of (build_full_url "/invite_user" (Some (api_url CONFIG)))
              [("user", VStr stu_id); ("secret", hasher_encode CONFIG stu_id)]
              (timeout CONFIG) in
  ∃ (w' : world Call) (records : list (level * list fragment)),
    _invite_to_wechat CONFIG build_full_url stu_id retry_times w = (Ok VNone, w') ∧
    w_posts w' = (w_posts w ++ replicate (Z.to_nat retry_times) rq)%list ∧
    w_log w' = (w_log w ++ records)%list ∧
    length records = Z.to_nat retry_times ∧
    Forall (fun r => r.1 = WARNING) records.
Proof.
  intros Hser Hsrv rq. unfold _invite_to_wechat. fold rq.
  set (url := build_full_url "/invite_user" (Some (api_url CONFIG))) in *.
  set (pd := [("user", VStr stu_id); ("secret", hasher_encode CONFIG stu_id)]) in *.
  assert (serialisable (VDict pd) = true) as Hpd by (cbn; by rewrite Hser).
  assert (∀ n (w1 : world Call), w_server w1 = w_server w ->
            ∃ w' records,
              invite_loop CONFIG stu_id url pd n w1 = (Ok VNone, w') ∧
              w_posts w' = (w_posts w1 ++ replicate n rq)%list ∧
              w_log w' = (w_log w1 ++ records)%list ∧
              length records = n ∧
              Forall (fun r => r.1 = WARNING) records) as Hloop; [|by apply Hloop].
  induction n as [|n IH]; intros w1 Hw1.
  { exists w1, []. cbn. by rewrite !app_nil_r. }
  rewrite invite_loop_step, Hpd. cbn zeta. rewrite Hw1.
  destruct (Hsrv (w_posts w1) (request_of url pd (timeout CONFIG)))
    as (raw & d & st & dd & detail & -> & Hjson & Hst & Hne & Hdata & Hdetail & Htrue).
  destruct (parse_reply_invite_detail stu_id raw d dd st detail
              Hjson Hst Hne Hdata Hdetail Htrue) as [-> Hnone].
  cbn [fst snd]. rewrite Hnone.
  match goal with
  | |- context [invite_loop _ _ _ _ n ?w2] =>
      destruct (IH w2) as (w' & records & Hrun & Hposts & Hlog & Hlen & Hall)
  end; [done|].
  cbn in Hposts, Hlog.
  eexists w', (_ :: records). rewrite Hrun.
  split; [done|]. split; [by rewrite Hposts, <- app_assoc|].
  split; [by rewrite Hlog, <- app_assoc|].
  split; [cbn; by rewrite Hlen|]. by constructor.
Qed.

Lemma invite_retries_every_detail_witness :
  ∃ (w' : world send_args) (records : list (level * list fragment)),
    _invite_to_wechat example_config example_build_full_url "u1" 3
      (example_world (Ok (json_response (response_retry "u1")))) = (Ok VNone, w') ∧
    w_posts w' = replicate 3 (request_of "https://wechat.example/invite_user"
                                [("user", VStr "u1"); ("secret", VStr "sha256:u1")]
                                (VInt 15)) ∧
    w_log w' = records ∧
    length records = 3%nat ∧
    Forall (fun r => r.1 = WARNING) records.
Proof.
  apply (invite_retries_every_detail example_config example_build_full_url "u1" 3
           (example_world (Ok (json_response (response_retry "u1")))) eq_refl).
  intros hist rq. by eexists _, _, _, _, _.
Defined.

(** ** [invite_to_wechat] *)

(** X3. [invite_to_wechat] invites the user named by the string of the
    identifier.  Without multithreading it never raises and makes at most
    [retry_times] requests, each the invitation of that user, and
    schedules nothing; with multithreading it only adds the one job for
    that call, five seconds from now, without a request or a log record
    of its own. *)
Theorem invite_to_wechat_dispatch {Call : Type} (CONFIG : wechat_config)
    (build_full_url : string -> option string -> string)
    (ref_invite_to_wechat : invite_args -> Call)
    (stu_id : ident) (retry_times : Z) (requested : bool) (w : world Call) :
  let run := invite_to_wechat CONFIG build_full_url ref_invite_to_wechat
               stu_id retry_times requested w in
  let rq := request_of (build_full_url "/invite_user" (Some (api_url CONFIG)))
              [("user", VStr (str stu_id));
               ("secret", hasher_encode CONFIG (str stu_id))]
              (timeout CONFIG) in
  (requested && multithread CONFIG = false ->
   ∃ k : nat,
     (k ≤ Z.to_nat retry_times)%nat ∧
     run.1 = Ok VNone ∧
     w_posts run.2 = (w_posts w ++ replicate k rq)%list ∧
     w_jobs run.2 = w_jobs w) ∧
  (requested && multithread CONFIG = true ->
   0 <= w_clock w (w_reads w) + 5000000 <= datetime_max ->
   run.1 = Ok VNone ∧
   w_posts run.2 = w_posts w ∧
   w_log run.2 = w_log w ∧
   w_jobs run.2
   = (w_jobs w ++ [{| job_call := ref_invite_to_wechat
                                    {| ia_stu_id := str stu_id;
                                       ia_retry_times := retry_times |};
                      job_trigger := "date";
                      job_next_run_time := w_clock w (w_reads w) + 5000000 |}])%list).
Proof.
  cbn zeta. unfold invite_to_wechat. split.
  - intros Hoff. rewrite get_caller_off by done.
    unfold call_invite_to_wechat, _invite_to_wechat. cbn [ia_stu_id ia_retry_times].
    destruct (invite_loop_trace CONFIG (str stu_id)
                (build_full_url "/invite_user" (Some (api_url CONFIG)))
                [("user", VStr (str stu_id));
                 ("secret", hasher_encode CONFIG (str stu_id))]
                (Z.to_nat retry_times) w)
      as (w' & k & -> & Hk & _ & Hposts & Hjobs & _).
    by exists k.
  - intros Hon Hclock. by rewrite get_caller_default.
Qed.

Lemma invite_to_wechat_dispatch_witness :
  let w := example_invite_world (Raise ConnectionError) in
  let run := invite_to_wechat example_config example_build_full_url id
               (IdInt 7) 3 true w in
  run.1 = Ok VNone ∧
  w_posts run.2 = [] ∧
  w_log run.2 = [] ∧
  w_jobs run.2 = [{| job_call := {| ia_stu_id := "7"; ia_retry_times := 3 |};
                     job_trigger := "date";
                     job_next_run_time := 63800000005000000 |}].
Proof.
  apply (proj2 (invite_to_wechat_dispatch example_config example_build_full_url id
                  (IdInt 7) 3 true (example_invite_world (Raise ConnectionError)))
           eq_refl).
  vm_compute. split; discriminate.
Defined.

(** ** [send_wechat] with a batch size that is not positive *)

Lemma range_zero_step (start stop : Z) : range start stop 0 = Raise ValueError.
Proof. reflexivity. Qed.

Lemma range_up_negative_step (stop step : Z) :
  0 <= stop -> step < 0 -> range 0 stop step = Ok [].
Proof.
  intros Hstop Hstep. unfold range.
  destruct (Z.eqb_spec step 0); [lia|]. destruct (Z.ltb_spec 0 step); [lia|].
  replace (Z.to_nat ((0 - stop - step - 1) / - step)) with 0%nat; [done|].
  assert ((0 - stop - step - 1) / - step < 1); [|lia].
  apply Z.div_lt_upper_bound; lia.
Qed.

(** X4. With a batch size of 0 and a recipient left after filtering,
    [send_wechat] raises [ValueError] before anything is sent, scheduled
    or logged. *)
Theorem send_wechat_zero_batch {Call : Type} (CONFIG : wechat_config)
    (build_full_url : string -> option string -> string)
    (ref_send_wechat : send_args -> Call)
    (users : list ident) (message api_path : string) (card : bool)
    (url btntxt : option string) (default multithread : bool) (retry_times : Z)
    (w : world Call) :
  send_batch CONFIG = 0 ->
  _get_available_users CONFIG users ≠ [] ->
  send_wechat CONFIG build_full_url ref_send_wechat users message api_path
    card url btntxt default multithread retry_times w = (Raise ValueError, w).
Proof.
  intros Hzero Hne. unfold send_wechat.
  rewrite bool_decide_eq_false_2, Hzero by done. reflexivity.
Qed.

(** X5. With a negative batch size and a recipient left after
    filtering, [send_wechat] returns normally having sent, scheduled and
    logged nothing. *)
Lemma send_wechat_zero_batch_witness :
  let w := example_world (Ok (json_response response_ok)) in
  send_wechat (example_config_batch 0) example_build_full_url id
    [IdInt 1; IdInt 2] "hello" "/send" true None None true true 3 w
  = (Raise ValueError, w).
Proof.
  intros w. apply send_wechat_zero_batch; [reflexivity|]. vm_compute. discriminate.
Defined.

Theorem send_wechat_negative_batch {Call : Type} (CONFIG : wechat_config)
    (build_full_url : string -> option string -> string)
    (ref_send_wechat : send_args -> Call)
    (users : list ident) (message api_path : string) (card : bool)
    (url btntxt : option string) (default multithread : bool) (retry_times : Z)
    (w : world Call) :
  send_batch CONFIG < 0 ->
  _get_available_users CONFIG users ≠ [] ->
  send_wechat CONFIG build_full_url ref_send_wechat users message api_path
    card url btntxt default multithread retry_times w = (Ok VNone, w).
Proof.
  intros Hneg Hne. unfold send_wechat.
  rewrite bool_decide_eq_false_2 by done.
  rewrite range_up_negative_step by lia. reflexivity.
Qed.

Lemma send_wechat_negative_batch_witness :
  let w := example_world (Ok (json_response response_ok)) in
  send_wechat (example_config_batch (-1)) example_build_full_url id
    [IdInt 1; IdInt 2] "hello" "/send" true None None true true 3 w
  = (Ok VNone, w).
Proof.
  intros w. apply send_wechat_negative_batch; [reflexivity|]. vm_compute. discriminate.
Defined.

(** ** [send_wechat] without multithreading *)

(** The arguments [send_wechat] calls the caller with, for the batch [b]. *)
Lemma send_wechat_unfold {Call : Type} (CONFIG : wechat_config)
    (build_full_url : string -> option string -> string)
    (ref_send_wechat : send_args -> Call)
    (users : list ident) (message api_path : string) (card : bool)
    (url btntxt : option string) (default multithread : bool) (retry_times : Z)
    (w : world Call) :
  0 < send_batch CONFIG ->
  _get_available_users CONFIG users ≠ [] ->
  ∃ mk : list string -> send_args,
    (∀ b, sa_users (mk b) = b) ∧
    (∀ b, sa_retry_times (mk b) = if negb (retry CONFIG) then 1 else retry_times) ∧
    send_wechat CONFIG build_full_url ref_send_wechat users message api_path
      card url btntxt default multithread retry_times w
    = for_each (seq 0 (Z.to_nat ((Z.of_nat (length (_get_available_users CONFIG users))
                                  + send_batch CONFIG - 1) / send_batch CONFIG)))
        (fun k : nat =>
           _get_caller CONFIG (call_send_wechat CONFIG) ref_send_wechat multithread NRNone
             (mk (slice (_get_available_users CONFIG users)
                    (Z.of_nat k * send_batch CONFIG)
                    (Z.of_nat k * send_batch CONFIG + send_batch CONFIG)))) w.
Proof.
  intros Hsize Hne. eexists (fun b => {| sa_users := b |}).
  split; [reflexivity|]. split; [reflexivity|].
  unfold send_wechat. rewrite bool_decide_eq_false_2 by done.
  rewrite range_from_zero by done.
  unfold mbind at 1. unfold M_bind, lift.
  rewrite for_each_fmap. reflexivity.
Qed.

Section RetryFrame.
Context {Call : Type} (CONFIG : wechat_config) (users : list string) (api_url : string).

(** The loop only posts requests and writes log records. *)
Lemma retry_loop_frame n : ∀ post_data (w : world Call),
  ∃ (r : res value) (w' : world Call) (k : nat),
    retry_loop CONFIG users api_url n post_data w = (r, w') ∧
    (k ≤ n)%nat ∧
    length (w_posts w') = (length (w_posts w) + k)%nat ∧
    w_jobs w' = w_jobs w ∧
    w_reads w' = w_reads w.
Proof.
  induction n as [|n IH]; intros post_data w.
  { exists (Ok VNone), w, 0%nat. repeat split; try done; lia. }
  rewrite retry_loop_step. cbn zeta.
  destruct (serialisable (VDict post_data)); cycle 1.
  { eexists _, _, 0%nat. repeat split; try done; cbn; lia. }
  destruct (parse_reply _ _) as [errmsg retrys]. cbn [fst snd].
  assert (∀ (w1 : world Call) (r : res value),
            w_posts w1 = (w_posts w ++ [request_of api_url post_data (timeout CONFIG)])%list ->
            w_jobs w1 = w_jobs w -> w_reads w1 = w_reads w ->
            ∃ r' w' k, (r, w1) = (r', w') ∧ (k ≤ S n)%nat ∧
              length (w_posts w') = (length (w_posts w) + k)%nat ∧
              w_jobs w' = w_jobs w ∧ w_reads w' = w_reads w) as Hone.
  { intros w1 r Hp Hj Hr. exists r, w1, 1%nat. rewrite Hp, length_app. cbn.
    repeat split; try done; lia. }
  destruct (is_none errmsg); [by apply Hone|].
  destruct retrys as [retrys|]; [|by apply Hone].
  destruct (_log_users retrys) as [failed|e]; [|by apply Hone].
  match goal with
  | |- context [retry_loop _ _ _ n ?pd ?w2] =>
      destruct (IH pd w2) as (r & w' & k & Hrun & Hk & Hposts & Hjobs & Hreads)
  end.
  cbn in Hposts, Hjobs, Hreads. rewrite length_app in Hposts. cbn in Hposts.
  exists r, w', (S k). rewrite Hrun. repeat split; try done; lia.
Qed.

End RetryFrame.

(** Calls of [_send_wechat] in a row, each with the retry count [retry_times]. *)
Lemma for_each_send_wechat_frame {Call A : Type} (CONFIG : wechat_config)
    (mk : A -> send_args) (retry_times : Z) (l : list A) :
  (∀ b, sa_retry_times (mk b) = retry_times) ->
  ∀ w : world Call,
    ∃ (r : res value) (w' : world Call) (k : nat),
      for_each l (fun b => call_send_wechat CONFIG (mk b)) w = (r, w') ∧
      (k ≤ length l * Z.to_nat retry_times)%nat ∧
      length (w_posts w') = (length (w_posts w) + k)%nat ∧
      w_jobs w' = w_jobs w ∧
      w_reads w' = w_reads w.
Proof.
  intros Hretry. induction l as [|b l IH]; intros w.
  { exists (Ok VNone), w, 0%nat. repeat split; try done; cbn; lia. }
  cbn [for_each]. unfold mbind at 1. unfold M_bind at 1.
  unfold call_send_wechat at 1. unfold _send_wechat. rewrite Hretry.
  destruct (retry_loop_frame CONFIG (sa_users (mk b)) (sa_api_url (mk b))
              (Z.to_nat retry_times)
              (initial_post_data CONFIG (sa_users (mk b)) (sa_message (mk b))
                 (sa_card (mk b)) (sa_url (mk b)) (sa_btntxt (mk b))) w)
    as (r & w1 & k & -> & Hk & Hposts & Hjobs & Hreads).
  destruct r as [v|e].
  - destruct (IH w1) as (r' & w' & k' & -> & Hk' & Hposts' & Hjobs' & Hreads').
    exists r', w', (k + k')%nat. cbn [length].
    repeat split; try done; try congruence; lia.
  - exists (Raise e), w1, k. cbn [length]. repeat split; try done; lia.
Qed.

(** X6. Without multithreading and with a positive batch size,
    [send_wechat] makes at most (number of batches) times (number of
    attempts) requests, the number of attempts being [retry_times], or 1
    when retries are configured off; it schedules nothing. *)
Theorem send_wechat_sync_posts_bound {Call : Type} (CONFIG : wechat_config)
    (build_full_url : string -> option string -> string)
    (ref_send_wechat : send_args -> Call)
    (users : list ident) (message api_path : string) (card : bool)
    (url btntxt : option string) (default requested : bool) (retry_times : Z)
    (w : world Call) :
  0 < send_batch CONFIG ->
  requested && multithread CONFIG = false ->
  let recipients := Z.of_nat (length (_get_available_users CONFIG users)) in
  let batches := Z.to_nat ((recipients + send_batch CONFIG - 1) / send_batch CONFIG) in
  let attempts := Z.to_nat (if retry CONFIG then retry_times else 1) in
  ∃ (r : res value) (w' : world Call) (k : nat),
    send_wechat CONFIG build_full_url ref_send_wechat users message api_path
      card url btntxt default requested retry_times w = (r, w') ∧
    (k ≤ batches * attempts)%nat ∧
    length (w_posts w') = (length (w_posts w) + k)%nat ∧
    w_jobs w' = w_jobs w.
Proof.
  intros Hsize Hoff recipients batches attempts.
  destruct (decide (_get_available_users CONFIG users = [])) as [Hnone|Hne].
  { exists (Ok VNone), (add_log w WARNING [Text "没有可用用户"]), 0%nat.
    unfold send_wechat. rewrite Hnone, bool_decide_eq_true_2 by done.
    repeat split; try done; cbn; lia. }
  destruct (send_wechat_unfold CONFIG build_full_url ref_send_wechat users message
              api_path card url btntxt default requested retry_times w Hsize Hne)
    as (mk & _ & Hretry & ->).
  rewrite get_caller_off by done.
  destruct (fun H => for_each_send_wechat_frame CONFIG
              (fun k : nat =>
                 mk (slice (_get_available_users CONFIG users)
                       (Z.of_nat k * send_batch CONFIG)
                       (Z.of_nat k * send_batch CONFIG + send_batch CONFIG)))
              (if retry CONFIG then retry_times else 1)
              (seq 0 batches) H w)
    as (r & w' & k & Hrun & Hk & Hposts & Hjobs & _).
  { intros k. rewrite Hretry. by destruct (retry CONFIG). }
  exists r, w', k. rewrite length_seq in Hk. done.
Qed.

Lemma send_wechat_sync_posts_bound_witness :
  ∃ (r : res value) (w' : world send_args) (k : nat),
    send_wechat example_config_sync example_build_full_url id
      [IdInt 1; IdInt 2; IdInt 3] "hello" "/send" true None None true true 3
      (example_world (Ok (json_response (response_retry "1")))) = (r, w') ∧
    (k ≤ 2 * 3)%nat ∧
    length (w_posts w') = k ∧
    w_jobs w' = [].
Proof.
  exact (send_wechat_sync_posts_bound example_config_sync example_build_full_url id
           [IdInt 1; IdInt 2; IdInt 3] "hello" "/send" true None None true true 3
           (example_world (Ok (json_response (response_retry "1")))) eq_refl eq_refl).
Defined.



(** ** [send_verify_code] *)





(** X9. When the recipient does not pass the filter, [send_verify_code]
    reads the clock, logs the warning of [send_wechat] and returns:
    nothing is sent or scheduled. *)
Theorem send_verify_code_no_recipient {Call : Type} (CONFIG : wechat_config)
    (build_full_url : string -> option string -> string)
    (strftime : datetime -> string -> string)
    (ref_send_wechat : send_args -> Call)
    (stu_id : ident) (captcha url : string) (w : world Call) :
  _get_available_users CONFIG [stu_id] = [] ->
  send_verify_code CONFIG build_full_url strftime ref_send_wechat stu_id captcha url w
  = (Ok VNone, add_log (tick w) WARNING [Text "没有可用用户"]).
Proof.
  intros Hnone. unfold send_verify_code.
  unfold mbind at 1. unfold M_bind at 1. unfold datetime_now.
  destruct (String.eqb url ""); unfold mbind, M_bind, send_wechat;
    by rewrite Hnone, bool_decide_eq_true_2.
Qed.

Lemma send_verify_code_no_recipient_witness :
  let w := example_world (Ok (json_response response_ok)) in
  send_verify_code example_config example_build_full_url example_strftime id
    (IdInt 3) "123456" "/forgetpw/" w
  = (Ok VNone, add_log (tick w) WARNING [Text "没有可用用户"]).
Proof.
  apply (send_verify_code_no_recipient example_config example_build_full_url
           example_strftime id (IdInt 3) "123456" "/forgetpw/").
  vm_compute. reflexivity.
Defined.

(** ** More on [_send_wechat] *)

Section RetryPayload.
Context {Call : Type} (CONFIG : wechat_config) (users : list string) (api_url : string).

(** Every request of the loop keeps what the payload had outside of
    ["touser"], which stays a list. *)
Lemma retry_loop_payloads n : ∀ post_data (w : world Call),
  (∃ l, dict_get post_data "touser" = Some (VList l)) ->
  ∃ (r : res value) (w' : world Call) (posts : list request),
    retry_loop CONFIG users api_url n post_data w = (r, w') ∧
    w_posts w' = (w_posts w ++ posts)%list ∧
    Forall (fun p => ∃ pd, p = request_of api_url pd (timeout CONFIG) ∧
                           (∃ l, dict_get pd "touser" = Some (VList l)) ∧
                           ∀ k, k ≠ "touser" -> dict_get pd k = dict_get post_data k)
           posts.
Proof.
  induction n as [|n IH]; intros post_data w Hto.
  { exists (Ok VNone), w, []. by rewrite app_nil_r. }
  rewrite retry_loop_step. cbn zeta.
  destruct (serialisable (VDict post_data)); cycle 1.
  { eexists _, _, []. cbn. by rewrite app_nil_r. }
  set (rq := request_of api_url post_data (timeout CONFIG)).
  assert (Forall (fun p => ∃ pd, p = request_of api_url pd (timeout CONFIG) ∧
                     (∃ l, dict_get pd "touser" = Some (VList l)) ∧
                     ∀ k, k ≠ "touser" -> dict_get pd k = dict_get post_data k) [rq])
    as Hrq by (repeat constructor; by exists post_data).
  destruct (parse_reply _ _) as [errmsg retrys]. cbn [fst snd].
  destruct (is_none errmsg); [by eexists _, _, [rq]|].
  destruct retrys as [retrys|]; [|by eexists _, _, [rq]].
  destruct (_log_users retrys) as [failed|e]; [|by eexists _, _, [rq]].
  match goal with
  | |- context [retry_loop _ _ _ n ?pd ?w2] =>
      destruct (IH pd w2) as (r & w' & posts & Hrun & Hposts & Hall)
  end.
  { exists retrys. apply dict_get_set. }
  cbn in Hposts. exists r, w', (rq :: posts). rewrite Hrun.
  split; [done|]. split; [by rewrite Hposts, <- app_assoc|].
  constructor; [by exists post_data|].
  eapply Forall_impl; [exact Hall|]. cbn.
  intros p (pd & -> & Hl & Hk). exists pd. repeat split; [done|].
  intros k Hne. rewrite Hk by done. by apply dict_get_set_ne.
Qed.

End RetryPayload.

(** X10. All requests of one call of [_send_wechat] go to the same URL
    with the same timeout, and their payloads agree on everything but the
    recipients, which are always a list: the content, [toall], the secret
    of the message and, with [card], the card flag with the link and the
    button given; without [card] none of these three is present. *)
Theorem send_wechat_payload_invariant {Call : Type} (CONFIG : wechat_config)
    (users : list string) (message api_url : string) (card : bool)
    (url btntxt : option string) (retry_times : Z) (w : world Call) :
  ∃ (r : res value) (w' : world Call) (posts : list request),
    _send_wechat CONFIG users message api_url card url btntxt retry_times w = (r, w') ∧
    w_posts w' = (w_posts w ++ posts)%list ∧
    Forall (fun p =>
      ∃ pd, p = request_of api_url pd (timeout CONFIG) ∧
            (∃ l, dict_get pd "touser" = Some (VList l)) ∧
            dict_get pd "content" = Some (VStr message) ∧
            dict_get pd "toall" = Some (VBool true) ∧
            dict_get pd "secret" = Some (hasher_encode CONFIG message) ∧
            dict_get pd "card" = (if card then Some (VBool true) else None) ∧
            dict_get pd "url" = (if card then VStr <$> url else None) ∧
            dict_get pd "btntxt" = (if card then VStr <$> btntxt else None))
      posts.
Proof.
  unfold _send_wechat.
  destruct (retry_loop_payloads CONFIG users api_url (Z.to_nat retry_times)
              (initial_post_data CONFIG users message card url btntxt) w)
    as (r & w' & posts & Hrun & Hposts & Hall).
  { exists (VStr <$> users). unfold initial_post_data. by destruct card, url, btntxt. }
  exists r, w', posts. split; [done|]. split; [done|].
  eapply Forall_impl; [exact Hall|]. cbn.
  intros p (pd & -> & Hl & Hk). exists pd. split; [done|]. split; [done|].
  rewrite !Hk by done. unfold initial_post_data.
  by destruct card, url, btntxt.
Qed.

(** [join] refuses a list with an entry that is not a string. *)
Lemma str_join_not_string (sep : string) (l : list value) (x : value) :
  x ∈ l -> (∀ s, x ≠ VStr s) -> str_join sep l = Raise TypeError.
Proof.
  intros Hin Hx. induction l as [|y l IH]; [by apply elem_of_nil in Hin|].
  apply elem_of_cons in Hin as [<-|Hin].
  - destruct x; try done. by destruct (Hx s).
  - specialize (IH Hin). destruct y; try done. destruct l; [done|].
    change (str_join sep (VStr s :: v :: l))
      with (r ← str_join sep (v :: l); Ok (s ++ sep ++ r)).
    by rewrite IH.
Qed.

(** X11. When the first answer is a partial failure whose retry list, of
    at most 10 entries, has an entry that is not a string, [_send_wechat]
    raises [TypeError] after that one request, without a log record. *)
Theorem send_wechat_retry_not_string {Call : Type} (CONFIG : wechat_config)
    (users : list string) (message api_url : string) (card : bool)
    (url btntxt : option string) (retry_times : Z) (w : world Call)
    (errmsg x : value) (retrys : list value) :
  let rq := request_of api_url
              (initial_post_data CONFIG users message card url btntxt)
              (timeout CONFIG) in
  0 < retry_times ->
  serialisable (hasher_encode CONFIG message) = true ->
  parse_reply (Some _parser) (w_server w (w_posts w) rq) = (errmsg, Some retrys) ->
  is_none errmsg = false ->
  (length retrys ≤ 10)%nat -> x ∈ retrys -> (∀ s, x ≠ VStr s) ->
  _send_wechat CONFIG users message api_url card url btntxt retry_times w
  = (Raise TypeError, add_post w rq).
Proof.
  intros rq Hpos Hser Hreply Hnone Hlen Hin Hx. unfold _send_wechat.
  destruct (Z.to_nat retry_times) as [|n] eqn:En; [lia|].
  rewrite retry_loop_step. cbn zeta. fold rq.
  rewrite serialisable_initial, Hser, Hreply. cbn [fst snd]. rewrite Hnone.
  assert (_log_users retrys = Raise TypeError) as ->; [|done].
  unfold _log_users. destruct (Z.leb_spec (Z.of_nat (length retrys)) 10); [|lia].
  by apply (str_join_not_string _ _ x).
Qed.

Lemma send_wechat_retry_not_string_witness :
  let w := example_world
             (Ok (json_response
                    (VDict [("status", VInt 400);
                            ("data", VDict [("detail",
                               VList [VList [VInt 1900012345; VStr "fail"]])])]))) in
  _send_wechat example_config ["1900012345"] "hello" "https://wechat.example/send"
    false None None 3 w
  = (Raise TypeError,
     add_post w (request_of "https://wechat.example/send"
                   [("touser", VList [VStr "1900012345"]); ("content", VStr "hello");
                    ("toall", VBool true); ("secret", VStr "sha256:hello")]
                   (VInt 15))).
Proof.
  intros w.
  apply (send_wechat_retry_not_string example_config ["1900012345"] "hello"
           "https://wechat.example/send" false None None 3 w
           (VStr "fail") (VInt 1900012345) [VInt 1900012345]);
    try reflexivity.
  - cbn. lia.
  - apply list_elem_of_singleton. reflexivity.
  - intros s. discriminate.
Defined.

(** X12. A first answer with a status other than 200, no true [detail]
    and an [errMsg] that is [None] is taken for a success: [_send_wechat]
    logs the success record after that one request and stops. *)
Theorem send_wechat_null_errmsg {Call : Type} (CONFIG : wechat_config)
    (users : list string) (message api_url : string) (card : bool)
    (url btntxt : option string) (retry_times : Z) (w : world Call)
    (raw : raw_response) (d dd : dict) (st : value) :
  let rq := request_of api_url
              (initial_post_data CONFIG users message card url btntxt)
              (timeout CONFIG) in
  0 < retry_times ->
  serialisable (hasher_encode CONFIG message) = true ->
  w_server w (w_posts w) rq = Ok raw ->
  response_json raw = Ok (VDict d) ->
  dict_get d "status" = Some st -> eq_int st 200 = false ->
  dict_get d "data" = Some (VDict dd) ->
  truthy (default VNone (dict_get dd "detail")) = false ->
  dict_get dd "errMsg" = Some VNone ->
  ∃ shown,
    _log_users (VStr <$> users) = Ok shown ∧
    _send_wechat CONFIG users message api_url card url btntxt retry_times w
    = (Ok VNone, add_log (add_post w rq) INFO [Text ("成功向" ++ shown ++ "发送消息")]).
Proof.
  intros rq Hpos Hser Hsrv Hjson Hst Hne Hdata Hfalse Herr.
  eexists. split; [apply log_users_strings|]. unfold _send_wechat.
  destruct (Z.to_nat retry_times) as [|n] eqn:En; [lia|].
  rewrite retry_loop_step. cbn zeta. fold rq.
  rewrite serialisable_initial, Hser, Hsrv.
  assert (parse_reply (Some _parser) (Ok raw) = (VNone, None)) as ->; [|done].
  cbn. rewrite Hjson. unfold parse_body. cbn. rewrite Hst. cbn. rewrite Hne, Hdata. cbn.
  by rewrite Hfalse, Herr.
Qed.

Lemma send_wechat_null_errmsg_witness :
  let w := example_world
             (Ok (json_response
                    (VDict [("status", VInt 400);
                            ("data", VDict [("errMsg", VNone)])]))) in
  ∃ shown,
    _log_users (VStr <$> ["u1"; "u2"]) = Ok shown ∧
    _send_wechat example_config ["u1"; "u2"] "hello" "https://wechat.example/send"
      false None None 3 w
    = (Ok VNone,
       add_log
         (add_post w (request_of "https://wechat.example/send"
                        [("touser", VList [VStr "u1"; VStr "u2"]);
                         ("content", VStr "hello");
                         ("toall", VBool true); ("secret", VStr "sha256:hello")]
                        (VInt 15)))
         INFO [Text ("成功向" ++ shown ++ "发送消息")]).
Proof.
  intros w.
  eapply (send_wechat_null_errmsg example_config ["u1"; "u2"] "hello"
            "https://wechat.example/send" false None None 3 w);
    reflexivity.
Defined.

(** ** More on the user filter *)

(** X13. [_get_available_users] depends only on the set of the strings of
    the identifiers: their order, their repetitions and whether one is
    given as an integer or as its decimal string make no difference. *)
Theorem get_available_users_by_strings (CONFIG : wechat_config)
    (users1 users2 : list ident) :
  (∀ s : string, s ∈ str <$> users1 ↔ s ∈ str <$> users2) ->
  _get_available_users CONFIG users1 = _get_available_users CONFIG users2.
Proof.
  intros Hsame. rewrite !get_available_users_unfold. do 2 f_equal.
  apply set_eq. intros s. by rewrite !elem_of_list_to_set.
Qed.

Lemma get_available_users_by_strings_witness :
  _get_available_users example_config_sync [IdInt 1; IdStr "1"; IdInt 2]
  = _get_available_users example_config_sync [IdStr "2"; IdInt 1].
Proof.
  apply get_available_users_by_strings. intros s. cbn.
  rewrite !elem_of_cons, !elem_of_nil. tauto.
Defined.

(** X14. With an allow-list that is configured but empty nobody is
    available: [_get_available_users] returns the empty list. *)
Theorem get_available_users_empty_allow_list (CONFIG : wechat_config)
    (users : list ident) :
  receivers CONFIG = Some ∅ -> _get_available_users CONFIG users = [].
Proof.
  intros Hempty. rewrite get_available_users_unfold.
  assert (available CONFIG (list_to_set (str <$> users)) = ∅) as ->.
  { apply set_eq. intros s. rewrite elem_of_available, Hempty. set_solver. }
  unfold sorted. by rewrite elements_empty.
Qed.

Lemma get_available_users_empty_allow_list_witness :
  _get_available_users example_config_closed [IdInt 1; IdStr "2"] = [].
Proof. apply get_available_users_empty_allow_list. reflexivity. Defined.

(** X15. [_get_available_users] never returns more recipients than it was
    given identifiers. *)
Theorem get_available_users_length (CONFIG : wechat_config) (users : list ident) :
  (length (_get_available_users CONFIG users) ≤ length users)%nat.
Proof.
  rewrite get_available_users_unfold, sorted_Permutation.
  change (length (elements ?s)) with (size s).
  trans (size (list_to_set (C:=gset string) (str <$> users))).
  - apply subseteq_size. intros s. rewrite elem_of_available. tauto.
  - rewrite <- (length_fmap str users).
    induction (str <$> users) as [|x l IH]; cbn; [by rewrite size_empty|].
    rewrite size_union_alt, size_singleton.
    etrans; [|apply le_n_S, IH].
    cbn. apply le_n_S, subseteq_size. set_solver.
Qed.

(** ** More on [_log_users] *)

(** X16. [_log_users] raises [TypeError] on a list of at most 10 entries
    with an entry that is not a string; on a longer list only the first
    three and the last three entries have to be strings, the others are
    neither shown nor looked at. *)
Theorem log_users_shown_entries (h1 h2 h3 t1 t2 t3 : string)
    (m1 m2 m3 m4 m5 : value) (mid : list value) :
  (∀ (l : list value) (x : value),
     (length l ≤ 10)%nat -> x ∈ l -> (∀ s, x ≠ VStr s) ->
     _log_users l = Raise TypeError) ∧
  _log_users ([VStr h1; VStr h2; VStr h3] ++ [m1; m2; m3; m4; m5] ++ mid
              ++ [VStr t1; VStr t2; VStr t3])%list
  = Ok (String.concat ", " [h1; h2; h3; "..."; t1; t2; t3]
        ++ "等" ++ str_of_Z (11 + Z.of_nat (length mid)) ++ "用户").
Proof.
  split.
  - intros l x Hlen Hin Hx. unfold _log_users.
    destruct (Z.leb_spec (Z.of_nat (length l)) 10); [|lia].
    by apply (str_join_not_string _ _ x).
  - unfold _log_users.
    set (l := ([VStr h1; VStr h2; VStr h3] ++ [m1; m2; m3; m4; m5] ++ mid
               ++ [VStr t1; VStr t2; VStr t3])%list).
    assert (length l = (11 + length mid)%nat) as Hlen
      by (subst l; cbn; rewrite length_app; cbn; lia).
    destruct (Z.leb_spec (Z.of_nat (length l)) 10); [lia|].
    rewrite (slice_last _ 3), slice_nonneg by lia.
    change (Z.to_nat 3) with 3%nat. change (Z.to_nat 0) with 0%nat.
    rewrite drop_0, Hlen.
    replace (11 + length mid - 3)%nat with (8 + length mid)%nat by lia.
    assert (take 3 l = [VStr h1; VStr h2; VStr h3]) as -> by done.
    assert (drop (8 + length mid) l = [VStr t1; VStr t2; VStr t3]) as ->.
    { subst l.
      replace ([VStr h1; VStr h2; VStr h3] ++ [m1; m2; m3; m4; m5] ++ mid
               ++ [VStr t1; VStr t2; VStr t3])%list
        with (([VStr h1; VStr h2; VStr h3] ++ [m1; m2; m3; m4; m5] ++ mid)
              ++ [VStr t1; VStr t2; VStr t3])%list
        by (by rewrite <- !app_assoc).
      rewrite drop_app_length'; [done|]. cbn. lia. }
    change ([VStr h1; VStr h2; VStr h3] ++ [VStr "..."] ++ [VStr t1; VStr t2; VStr t3])%list
      with (VStr <$> [h1; h2; h3; "..."; t1; t2; t3]).
    rewrite str_join_strings.
    replace (Z.of_nat (11 + length mid)) with (11 + Z.of_nat (length mid)) by lia.
    reflexivity.
Qed.

Lemma log_users_shown_entries_witness :
  _log_users [VStr "u1"; VInt 2; VStr "u3"] = Raise TypeError.
Proof.
  apply (proj1 (log_users_shown_entries "" "" "" "" "" "" VNone VNone VNone VNone VNone [])
           _ (VInt 2)).
  - cbn. lia.
  - apply elem_of_cons. right. apply elem_of_cons. by left.
  - intros s. discriminate.
Defined.

(** ** More on the local [_parser] *)

Lemma string_take_length (k : nat) (s : string) :
  (String.length (string_take k s) ≤ k)%nat.
Proof.
  revert s. induction k as [|k IH]; intros [|c s]; cbn; try lia.
  specialize (IH s). lia.
Qed.

Lemma string_take_all (k : nat) (s : string) :
  (String.length s ≤ k)%nat -> string_take k s = s.
Proof.
  revert s. induction k as [|k IH]; intros [|c s] Hlen; cbn in *; try done; [lia|].
  rewrite IH; [done|lia].
Qed.

Lemma string_drop_all (k : nat) (s : string) :
  (String.length s ≤ k)%nat -> string_drop k s = "".
Proof.
  revert s. induction k as [|k IH]; intros [|c s] Hlen; cbn in *; try done; [lia|].
  apply IH. lia.
Qed.

(** A character is a string of one character. *)
Lemma str_chars_char (a : ascii) (s : string) :
  str_chars (String a (string_take (utf8_tail_len a) s))
  = [String a (string_take (utf8_tail_len a) s)].
Proof.
  unfold str_chars. cbn.
  pose proof (string_take_length (utf8_tail_len a) s) as Hlen.
  rewrite string_take_all, string_drop_all by done.
  by destruct (String.length _).
Qed.

(** The characters of a string are characters. *)
Lemma str_chars_aux_chars (fuel : nat) (s : string) :
  Forall (fun c => str_chars c = [c]) (str_chars_aux fuel s).
Proof.
  revert s. induction fuel as [|fuel IH]; intros [|a s]; cbn; try done.
  constructor; [apply str_chars_char|apply IH].
Qed.

Lemma comprehension_Ok {A B} (f : A -> res B) (g : A -> B) (l : list A) :
  Forall (fun x => f x = Ok (g x)) l -> comprehension f l = Ok (g <$> l).
Proof.
  induction 1 as [|x l Hx Hl IH]; [done|]. cbn. rewrite Hx. cbn. by rewrite IH.
Qed.

Lemma comprehension_length {A B} (f : A -> res B) (l : list A) (ys : list B) :
  comprehension f l = Ok ys -> length ys = length l.
Proof.
  revert ys. induction l as [|x l IH]; intros ys; cbn.
  - by intros [= <-].
  - destruct (f x) as [y|e]; cbn; [|done].
    destruct (comprehension f l) as [ys'|e]; cbn; [|done].
    intros [= <-]. cbn. by rewrite (IH ys').
Qed.

(** X17. The [_parser] of [_send_wechat] raises [IndexError] on every
    [detail] that is a string, so a response with such a detail gives
    "回应解析失败" with no retry list. *)
Theorem parser_string_detail (s : string) (d dd : dict) (st : value) :
  _parser (VStr s) = Raise IndexError ∧
  (dict_get d "status" = Some st -> eq_int st 200 = false ->
   dict_get d "data" = Some (VDict dd) ->
   dict_get dd "detail" = Some (VStr s) -> s ≠ "" ->
   parse_reply (Some _parser) (Ok {| response_json := Ok (VDict d) |})
   = (VStr "回应解析失败", None)).
Proof.
  assert (_parser (VStr s) = Raise IndexError) as Hraise.
  { unfold _parser. cbn [iterate mbind res_bind].
    rewrite (comprehension_Ok _ id); cycle 1.
    { apply Forall_fmap. eapply Forall_impl; [apply str_chars_aux_chars|].
      cbn. intros c Hc. by rewrite Hc. }
    destruct s as [|a s]; [done|].
    change (getitem_nat (VStr (String a s)) 0)
      with (Ok (A:=value) (VStr (String a (string_take (utf8_tail_len a) s)))).
    cbn [mbind res_bind]. unfold getitem_nat. by rewrite str_chars_char. }
  split; [done|].
  intros Hst Hne Hdata Hdetail Hs. unfold parse_reply. cbn [response_json].
  rewrite (parse_body_detail _ d st dd (VStr s)), Hraise; try done.
  cbn. by destruct s.
Qed.

Lemma parser_string_detail_witness :
  parse_reply (Some _parser)
    (Ok {| response_json :=
             Ok (VDict [("status", VInt 400);
                        ("data", VDict [("detail", VStr "not in corp")])]) |})
  = (VStr "回应解析失败", None).
Proof.
  eapply (proj2 (parser_string_detail "not in corp" _ _ _)); try reflexivity.
  discriminate.
Defined.

(** X18. When the [_parser] of [_send_wechat] succeeds on a detail list,
    the list is not empty and the retry list has one entry per entry of
    it, in order: the first component of that entry. *)
Theorem parser_one_retry_per_entry (l : list value) (errmsg : value)
    (retrys : list value) :
  _parser (VList l) = Ok (errmsg, Some retrys) ->
  length retrys = length l ∧ l ≠ []
  ∧ ∀ i x, l !! i = Some x -> ∃ y, retrys !! i = Some y ∧ getitem_nat x 0 = Ok y.
Proof.
  unfold _parser. cbn [iterate mbind res_bind].
  destruct (comprehension _ l) as [ys|e] eqn:Hc; [|done]. cbn.
  destruct l as [|x0 l]; [done|]. cbn.
  destruct (getitem_nat x0 1) as [m|e]; cbn; [|done].
  intros [= <- <-]. split; [by apply comprehension_length in Hc|]. split; [done|].
  clear m. revert ys Hc. generalize (x0 :: l). clear.
  induction l as [|x l IH]; intros ys Hc i z Hi; [done|].
  cbn in Hc. destruct (getitem_nat x 0) as [y|e] eqn:Hx; cbn in Hc; [|done].
  destruct (comprehension _ l) as [ys'|e] eqn:Hl; cbn in Hc; [|done].
  injection Hc as <-. destruct i as [|i]; cbn in *.
  - injection Hi as <-. by exists y.
  - by apply IH.
Qed.

Lemma parser_one_retry_per_entry_witness :
  let l := [VList [VStr "u1"; VStr "a"]; VList [VStr "u1"; VStr "b"]] in
  let retrys := [VStr "u1"; VStr "u1"] in
  length retrys = length l ∧ l ≠ []
  ∧ ∀ i x, l !! i = Some x -> ∃ y, retrys !! i = Some y ∧ getitem_nat x 0 = Ok y.
Proof.
  exact (parser_one_retry_per_entry
           [VList [VStr "u1"; VStr "a"]; VList [VStr "u1"; VStr "b"]]
           (VStr "a") [VStr "u1"; VStr "u1"] eq_refl).
Defined.

(** ** [_get_caller] beyond the last instant *)

(** X19. With multithreading on and a [timedelta] that takes the current
    time beyond the last [datetime], calling what [_get_caller] returns
    raises [OverflowError] after reading the clock, and adds no job. *)
Theorem get_caller_overflow {Call A : Type} (CONFIG : wechat_config)
    (func : A -> M Call value) (func_ref : A -> Call)
    (requested : bool) (d : timedelta) (args : A) (w : world Call) :
  requested && multithread CONFIG = true ->
  datetime_max < w_clock w (w_reads w) + d ->
  _get_caller CONFIG func func_ref requested (NRTimedelta d) args w
  = (Raise OverflowError, tick w).
Proof.
  intros Hon Hover. unfold _get_caller. rewrite Hon. cbn.
  unfold mbind, M_bind, datetime_now, lift, datetime_add. cbn.
  destruct (Z.leb_spec (w_clock w (w_reads w) + d) datetime_max); [lia|].
  by rewrite andb_false_r.
Qed.

Lemma get_caller_overflow_witness :
  let w := example_world (Ok (json_response response_ok)) in
  _get_caller example_config (call_send_wechat example_config) id true
    (NRTimedelta (timedelta_seconds (999999999 * 86400)))
    {| sa_users := ["1"]; sa_message := "hello"; sa_api_url := "";
       sa_card := false; sa_url := None; sa_btntxt := None; sa_retry_times := 1 |} w
  = (Raise OverflowError, tick w).
Proof.
  intros w. apply get_caller_overflow; reflexivity.
Defined.
